(** * Electrolyzer digital twin: the three backend variants

    A shallow embedding of the ingestion and assessment code of
    [software_stack/backend]:

    - [backend_api.py]          (module [BackendApi]),
    - [main.py]                 (module [Main]),
    - [electrolyzer_backend.py] (module [ElectrolyzerBackend]),

    the start-up, authentication and read endpoints of [main.py] (module
    [MainApp]) and the publisher [software_stack/simulator/data_simulator.py]
    (module [DataSimulator]).

    Python values decoded from JSON are modelled by [Py.value]; Python
    floats are IEEE binary64 and are modelled by Rocq's primitive floats;
    Python's arbitrary precision integers by [Z]; dictionaries by [gmap].
    Handlers are computations in a state-and-exception monad over the
    process globals ([Py.proc]).  Library code that is not part of the
    repository (the JSON parser, the ISO-8601 parser, [int()], the network
    and the scikit-learn model) enters as data of the input or as a
    parameter. *)

From Stdlib Require Import ZArith Floats Lia Ascii.
From stdpp Require Import base option list strings gmap.

Set Warnings "-inexact-float,-register-all".

Local Open Scope string_scope.
Local Open Scope Z_scope.

(** ** Python values, exceptions and comparisons *)

Module Py.

(** What [json.loads] can return. *)
Inductive value :=
| VNone
| VBool (b : bool)
| VInt (z : Z)
| VFloat (f : float)
| VStr (s : string)
| VList (l : list value)
| VDict (d : gmap string value).

(** The exception classes the handlers can meet.  [JSONDecodeError] and
    [UnicodeDecodeError] are subclasses of [ValueError]. *)
Inductive exn :=
| JSONDecodeError
| UnicodeDecodeError
| ValueError
| KeyError (k : string)
| TypeError
| AttributeError
| ApiException
| ConnectionFailure
| HTTPException (status_code : Z).

Definition is_JSONDecodeError (e : exn) : bool :=
  match e with JSONDecodeError => true | _ => false end.

Definition is_ValueError (e : exn) : bool :=
  match e with
  | JSONDecodeError | UnicodeDecodeError | ValueError => true
  | _ => false
  end.

(** Numbers: [bool] is a subclass of [int]. *)
Inductive num := NInt (z : Z) | NFloat (f : float).

Definition as_num (v : value) : option num :=
  match v with
  | VBool b => Some (NInt (if b then 1 else 0))
  | VInt z => Some (NInt z)
  | VFloat f => Some (NFloat f)
  | _ => None
  end.

Definition of_num (n : num) : value :=
  match n with NInt z => VInt z | NFloat f => VFloat f end.

(** Python compares an [int] with a [float] exactly, without rounding the
    integer.  A finite binary64 is [(-1)^s * m * 2^e]. *)
Definition cmp_Z_float (z : Z) (f : float) : option comparison :=
  match Prim2SF f with
  | S754_nan => None
  | S754_infinity s => Some (if s then Gt else Lt)
  | S754_zero _ => Some (z ?= 0)
  | S754_finite s m e =>
      let mz := if s then Z.neg m else Z.pos m in
      Some (if 0 <=? e then z ?= mz * 2 ^ e else z * 2 ^ (- e) ?= mz)
  end.

Definition cmp_float (f g : float) : option comparison :=
  match PrimFloat.compare f g with
  | FEq => Some Eq
  | FLt => Some Lt
  | FGt => Some Gt
  | FNotComparable => None
  end.

Definition num_compare (a b : num) : option comparison :=
  match a, b with
  | NInt x, NInt y => Some (x ?= y)
  | NInt x, NFloat g => cmp_Z_float x g
  | NFloat f, NInt y => CompOpp <$> cmp_Z_float y f
  | NFloat f, NFloat g => cmp_float f g
  end.

(** [a < b], [a > b], [a <= b], [a == b] on numbers; every comparison with
    NaN is false. *)
Definition num_ltb (a b : num) : bool :=
  match num_compare a b with Some Lt => true | _ => false end.

Definition num_gtb (a b : num) : bool :=
  match num_compare a b with Some Gt => true | _ => false end.

Definition num_leb (a b : num) : bool :=
  match num_compare a b with Some Lt | Some Eq => true | _ => false end.

Definition num_eqb (a b : num) : bool :=
  match num_compare a b with Some Eq => true | _ => false end.

Definition num_is_nan (a : num) : bool :=
  match a with NInt _ => false | NFloat f => is_nan f end.

(** The builtins [min(a, b)] and [max(a, b)]: the first argument is kept
    unless the second is strictly smaller (resp. strictly greater). *)
Definition py_min (a b : num) : num := if num_ltb b a then b else a.
Definition py_max (a b : num) : num := if num_gtb b a then b else a.

(** Truth value of an object, as tested by [if x:] and [not x]. *)
Definition truthy (v : value) : bool :=
  match v with
  | VNone => false
  | VBool b => b
  | VInt z => negb (z =? 0)
  | VFloat f => negb (f =? 0)%float
  | VStr s => negb (String.eqb s "")
  | VList l => match l with [] => false | _ => true end
  | VDict d => negb (bool_decide (d = ∅))
  end.

(** Outcome of running a piece of Python code. *)
Inductive outcome (A : Type) :=
| Returned (a : A)
| Raised (e : exn).
Arguments Returned {A} a.
Arguments Raised {A} e.

#[global] Instance outcome_ret : MRet outcome := λ A a, Returned a.

#[global] Instance outcome_bind : MBind outcome := λ A B f o,
  match o with
  | Returned a => f a
  | Raised e => Raised e
  end.

(** [v > bound] for a numeric literal [bound]: a [TypeError] unless [v] is
    a number. *)
Definition gt (v : value) (bound : num) : outcome bool :=
  match as_num v with
  | Some n => Returned (num_gtb n bound)
  | None => Raised TypeError
  end.

(** [obj[key]]: a [KeyError] on a dictionary without the key, a
    [TypeError] on anything that is not a dictionary (lists and strings
    take integer indices, the other values are not subscriptable). *)
Definition getitem (obj : value) (key : string) : outcome value :=
  match obj with
  | VDict d =>
      match d !! key with
      | Some v => Returned v
      | None => Raised (KeyError key)
      end
  | _ => Raised TypeError
  end.

(** [obj.get(key, dflt)]: only dictionaries have the method. *)
Definition get (obj : value) (key : string) (dflt : value) : outcome value :=
  match obj with
  | VDict d => Returned (default dflt (d !! key))
  | _ => Raised AttributeError
  end.

End Py.

(** ** The process: globals, environment, effects *)

Module Rt.
Import Py.

Inductive level := INFO | WARNING | ERROR.

(** What a handler does besides writing records: console and log lines
    (the text is the literal part of the message, interpolated values are
    left out), waits, and blocking round trips to the time-series store. *)
Inductive event :=
| Print (text : string)
| Log (lv : level) (text : string)
| Sleep (seconds : Z)
| SinkQuery.

(** The argument of [Point.time]: the wire value passed through unchanged,
    an instant (a [datetime] or an epoch), or the ISO text of an instant
    ([datetime.utcnow().isoformat()]). *)
Inductive stamp :=
| Wire (v : value)
| Instant (t : Z)
| IsoText (t : Z).

Record point := Point {
  measurement : string;
  tags : list (string * string);
  fields : list (string * value);
  time : stamp
}.

(** The fitted scikit-learn estimator, as far as the code uses it. *)
Record estimator := Estimator {
  predict : list value → outcome Z;
  decision_function : list value → outcome float
}.

Record proc := Proc {
  (* module globals *)
  mqtt_client : bool;          (* whether the global holds a client *)
  influx_client : bool;        (* whether the global holds a client *)
  write_api : bool;            (* whether the global holds a write API *)
  latest_data : value;
  model : option estimator;
  (* environment *)
  clock : Z;                   (* current process time *)
  mqtt_connected : bool;       (* what [mqtt_client.is_connected()] answers now *)
  sink_answers : bool;         (* whether the store answers a query now *)
  faults : list bool;          (* outcomes of the next synchronous writes *)
  (* effects *)
  sink : list point;           (* records handed to the store, oldest first *)
  trace : list event           (* oldest first *)
}.

Definition M (A : Type) : Type := proc → outcome A * proc.

#[global] Instance M_ret : MRet M := λ A a s, (Returned a, s).

#[global] Instance M_bind : MBind M := λ A B f m s,
  match m s with
  | (Returned a, s') => f a s'
  | (Raised e, s') => (Raised e, s')
  end.

Definition raise {A} (e : exn) : M A := λ s, (Raised e, s).

Definition lift {A} (o : outcome A) : M A := λ s, (o, s).

Definition gets {A} (f : proc → A) : M A := λ s, (Returned (f s), s).

Definition modify (f : proc → proc) : M unit := λ s, (Returned tt, f s).

(** [try: body except Exception as e: handler e]; what [body] did before
    it raised stays done. *)
Definition try_except {A} (body : M A) (handler : exn → M A) : M A := λ s,
  match body s with
  | (Raised e, s') => handler e s'
  | r => r
  end.

Definition record (ev : event) (s : proc) : proc :=
  Proc (mqtt_client s) (influx_client s) (write_api s) (latest_data s)
       (model s) (clock s) (mqtt_connected s) (sink_answers s) (faults s)
       (sink s) (trace s ++ [ev]).

Definition emit (ev : event) : M unit := modify (record ev).
Definition print (text : string) : M unit := emit (Print text).
Definition log (lv : level) (text : string) : M unit := emit (Log lv text).

Definition store (p : point) (s : proc) : proc :=
  Proc (mqtt_client s) (influx_client s) (write_api s) (latest_data s)
       (model s) (clock s) (mqtt_connected s) (sink_answers s) (faults s)
       (sink s ++ [p]) (trace s).

Definition next_fault (s : proc) : proc :=
  Proc (mqtt_client s) (influx_client s) (write_api s) (latest_data s)
       (model s) (clock s) (mqtt_connected s) (sink_answers s)
       (tail (faults s)) (sink s) (trace s).

(** [write_api.write] with [SYNCHRONOUS] options: the call raises when the
    store refuses the record. *)
Definition write_sync (p : point) : M unit := λ s,
  match faults s with
  | false :: _ => (Raised ApiException, next_fault s)
  | _ => (Returned tt, store p (next_fault s))
  end.

(** [write_api.write] with [ASYNCHRONOUS] options: the record is queued
    and the call returns. *)
Definition write_async (p : point) : M unit := modify (store p).

Definition with_latest_data (v : value) (s : proc) : proc :=
  Proc (mqtt_client s) (influx_client s) (write_api s) v (model s) (clock s)
       (mqtt_connected s) (sink_answers s) (faults s) (sink s) (trace s).

Definition with_model (m : option estimator) (s : proc) : proc :=
  Proc (mqtt_client s) (influx_client s) (write_api s) (latest_data s) m
       (clock s) (mqtt_connected s) (sink_answers s) (faults s) (sink s)
       (trace s).

Definition with_influx (client api : bool) (s : proc) : proc :=
  Proc (mqtt_client s) client api (latest_data s) (model s) (clock s)
       (mqtt_connected s) (sink_answers s) (faults s) (sink s) (trace s).

Definition with_mqtt_client (c : bool) (s : proc) : proc :=
  Proc c (influx_client s) (write_api s) (latest_data s) (model s) (clock s)
       (mqtt_connected s) (sink_answers s) (faults s) (sink s) (trace s).

(** An MQTT message, by what [json.loads(msg.payload.decode())] makes of
    its bytes. *)
Inductive wire :=
| NotUtf8
| NotJson
| Json (v : value).

Definition loads (msg : wire) : M value :=
  match msg with
  | NotUtf8 => raise UnicodeDecodeError
  | NotJson => raise JSONDecodeError
  | Json v => mret v
  end.

(** The client loop hands each message to the callback; paho re-raises
    what the callback raises (its [suppress_exceptions] is off by
    default), which ends the loop. *)
Fixpoint deliver (callback : wire → M unit) (msgs : list wire) : M unit :=
  match msgs with
  | [] => mret tt
  | msg :: rest => callback msg;; deliver callback rest
  end.

(** A process right after import: no clients, no data, nothing written. *)
Definition boot (now : Z) : proc :=
  Proc false false false (VDict ∅) None now false true [] [] [].

End Rt.

(** ** backend_api.py *)

Module BackendApi.
Import Py Rt.

Definition THRESHOLD_VOLTAGE_HIGH : num := NFloat 2.2.
Definition THRESHOLD_CONDUCTIVITY_HIGH : num := NFloat 0.5.
Definition THRESHOLD_TEMP_HIGH : num := NInt 90.

(** Lines 36-45 of [on_message]: the [if]/[elif] chain over the decoded
    payload. *)
Definition threshold_status (payload : value) : M string :=
  conductivity ← lift (getitem payload "conductivity");
  hit ← lift (gt conductivity THRESHOLD_CONDUCTIVITY_HIGH);
  if hit : bool then
    print "ALERT: High conductivity detected. Possible contamination!";;
    mret "water_contamination_alert"
  else
    voltage ← lift (getitem payload "voltage");
    hit ← lift (gt voltage THRESHOLD_VOLTAGE_HIGH);
    if hit : bool then
      print "ALERT: High voltage detected. Possible degradation!";;
      mret "voltage_anomaly_alert"
    else
      temperature ← lift (getitem payload "temperature");
      hit ← lift (gt temperature THRESHOLD_TEMP_HIGH);
      if hit : bool then
        print "ALERT: High temperature detected. Cooling issue!";;
        mret "overheating_alert"
      else mret "normal".

(** Lines 50-54: the placeholder for the model's prediction. *)
Definition ai_placeholder (status : string) : string * Z :=
  let ai_prediction_status := "Normal" in
  let health_score := 99 in
  if negb (String.eqb status "normal")
  then ("Anomaly Detected", 45)
  else (ai_prediction_status, health_score).

Definition on_message (msg : wire) : M unit :=
  payload ← loads msg;
  print "Received: ";;
  status ← threshold_status payload;
  let '(ai_prediction_status, health_score) := ai_placeholder status in
  temperature ← lift (getitem payload "temperature");
  voltage ← lift (getitem payload "voltage");
  current ← lift (getitem payload "current");
  conductivity ← lift (getitem payload "conductivity");
  timestamp ← lift (getitem payload "timestamp");
  write_sync (Point "electrolyzer_metrics" [("host", "electrolyzer_1")]
                [("temperature", temperature); ("voltage", voltage);
                 ("current", current); ("conductivity", conductivity)]
                (Wire timestamp));;
  now ← gets clock;
  write_sync (Point "ai_predictions" [("host", "electrolyzer_1")]
                [("predicted_status", VStr ai_prediction_status);
                 ("health_score", VInt health_score)]
                (Instant now));;
  print "Data written to InfluxDB".

(** [start_mqtt_listener], once connected: [loop_forever] feeding
    [on_message]. *)
Definition start_mqtt_listener (msgs : list wire) : M unit :=
  deliver on_message msgs.

End BackendApi.

(** ** main.py *)

Module Main.
Import Py Rt.

(** Lines 28-37: the settings read from the environment at import.
    [int] is Python's [int()] on a string. *)
Record config := Config {
  MQTT_BROKER : string;
  MQTT_PORT : Z;
  MQTT_USER : string;
  MQTT_PASS : string;
  INFLUX_URL : string;
  INFLUX_TOKEN : string;
  INFLUX_ORG : string;
  INFLUX_BUCKET : string;
  SECRET_KEY : string
}.

Definition getenv (environ : gmap string string) (key dflt : string) : string :=
  default dflt (environ !! key).

Definition load_config (int : string → option Z) (environ : gmap string string)
  : outcome config :=
  let broker := getenv environ "MQTT_BROKER" "mosquitto" in
  match (match environ !! "MQTT_PORT" with
         | Some text => int text
         | None => Some 1883
         end) with
  | None => Raised ValueError
  | Some port =>
      Returned (Config broker port
                  (getenv environ "MQTT_USER" "admin")
                  (getenv environ "MQTT_PASS" "secret")
                  (getenv environ "INFLUX_URL" "http://influxdb:8086")
                  (getenv environ "INFLUX_TOKEN" "influx-token-2024")
                  (getenv environ "INFLUX_ORG" "electrolyzer")
                  (getenv environ "INFLUX_BUCKET" "electrolyzer_data")
                  (getenv environ "SECRET_KEY" "your-secret-key"))
  end.

(** [data.get("timestamp", datetime.utcnow().isoformat())] as the argument
    of [Point.time]. *)
Definition timestamp_of (data : value) (now : Z) : outcome stamp :=
  match data with
  | VDict d =>
      Returned (match d !! "timestamp" with
                | Some v => Wire v
                | None => IsoText now
                end)
  | _ => Raised AttributeError
  end.

(** The log texts of this file are Arabic; they are rendered in English. *)
Definition on_mqtt_message (msg : wire) : M unit :=
  try_except
    (data ← loads msg;
     log INFO "Received data via MQTT: ";;
     modify (with_latest_data data);;
     api ← gets write_api;
     if api : bool then
       now ← gets clock;
       timestamp ← lift (timestamp_of data now);
       temperature ← lift (get data "temperature" (VInt 0));
       pressure ← lift (get data "pressure" (VInt 0));
       voltage ← lift (get data "voltage" (VInt 0));
       current ← lift (get data "current" (VInt 0));
       flow_rate ← lift (get data "flow_rate" (VInt 0));
       write_async (Point "sensor_data" [("source", "backend")]
                      [("temperature", temperature); ("pressure", pressure);
                       ("voltage", voltage); ("current", current);
                       ("flow_rate", flow_rate)]
                      timestamp);;
       log INFO "Data saved to InfluxDB from Backend."
     else log WARNING "InfluxDB not available in Backend.")
    (λ e, log ERROR "Failed to process MQTT message: ").

(** [load_ai_model]; [fit] is what constructing and fitting the
    [IsolationForest] on the sample data comes to. *)
Definition load_ai_model (fit : outcome estimator) : M unit :=
  try_except
    (m ← lift fit;
     modify (with_model (Some m));;
     log INFO "AI Model loaded.")
    (λ e, log ERROR "Failed to load AI Model: ";;
          modify (with_model None)).

(** The body returned by [/predict]. *)
Record prediction := Prediction {
  status : string;
  health_score : num;
  probability : float
}.

(** Line 167: [max(0, min(100, (1 - abs(prob)) * 100))]. *)
Definition health_of (prob : float) : num :=
  py_max (NInt 0) (py_min (NInt 100) (NFloat ((1 - abs prob) * 100)%float)).

(** Lines 159-163: the feature row, in the order the model was trained
    on.  Turning it into an array belongs to NumPy and is part of what
    [predict] and [decision_function] stand for. *)
Definition features_of (data : value) : outcome (list value) :=
  temperature ← get data "temperature" (VInt 0);
  pressure ← get data "pressure" (VInt 0);
  voltage ← get data "voltage" (VInt 0);
  current ← get data "current" (VInt 0);
  flow_rate ← get data "flow_rate" (VInt 0);
  mret [temperature; pressure; voltage; current; flow_rate].

(** [predict_anomaly], behind the token check of the HTTP layer. *)
Definition predict_anomaly : M prediction :=
  data ← gets latest_data;
  fitted ← gets model;
  match (if negb (truthy data) then None else fitted) with
  | None => raise (HTTPException 400)
  | Some m =>
      features ← lift (features_of data);
      label ← lift (predict m features);
      prob ← lift (decision_function m features);
      let health_score := health_of prob in
      let status := if label =? -1 then "anomaly" else "normal" in
      api ← gets write_api;
      (if api : bool then
         now ← gets clock;
         write_async (Point "ai_predictions" []
                        [("health_score", of_num health_score);
                         ("predicted_status", VStr status)]
                        (IsoText now))
       else mret tt);;
      mret (Prediction status health_score (abs prob))
  end.

End Main.

(** ** electrolyzer_backend.py *)

Module ElectrolyzerBackend.
Import Py Rt.

Definition getenv (environ : gmap string string) (key dflt : string) : string :=
  default dflt (environ !! key).

(** *** Start-up *)

(** One pass through the [try] body of [setup_influxdb]: the client
    constructor raises, or [write_api()] raises after the client global is
    assigned, or both globals are assigned. *)
Inductive built := CtorRaises | ApiRaises | Built.

(** The [for attempt in range(5)] loop of [setup_influxdb] and what
    follows it. *)
Fixpoint connect_influx (ctor : nat → built) (attempts : list nat) : M bool :=
  match attempts with
  | [] => log ERROR "Final failure in connecting to InfluxDB";; mret false
  | attempt :: rest =>
      match ctor attempt with
      | Built =>
          modify (with_influx true true);;
          log INFO "Successfully connected to InfluxDB from Backend!";;
          mret true
      | failed =>
          (match failed with
           | ApiRaises => modify (λ s, with_influx true (write_api s) s)
           | _ => mret tt
           end);;
          log WARNING "Attempt: Failed to connect to InfluxDB: ";;
          (if (attempt <? 4)%nat then emit (Sleep 5) else mret tt);;
          connect_influx ctor rest
      end
  end.

Section Startup.

(** The process environment; Python's [int()] on a string; the outcome of
    building the store client with the given URL, token and organisation
    at the given attempt; whether [connect] and [loop_start] go through
    for the given host, port, user and password at the given attempt. *)
Variable environ : gmap string string.
Variable int : string → option Z.
Variable influx : string → string → string → nat → built.
Variable broker : string → Z → string → string → nat → bool.

Definition setup_influxdb : M bool :=
  let INFLUX_TOKEN := getenv environ "INFLUX_TOKEN" "influx-token-2024" in
  if String.eqb INFLUX_TOKEN "" || String.eqb INFLUX_TOKEN "influx-token-2024"
  then
    log ERROR "INFLUX_TOKEN is not set properly in .env! Please update it.";;
    mret false
  else
    let INFLUX_URL := getenv environ "INFLUX_URL" "http://localhost:8086" in
    let INFLUX_ORG := getenv environ "INFLUX_ORG" "electrolyzer" in
    connect_influx (influx INFLUX_URL INFLUX_TOKEN INFLUX_ORG) (seq 0 5).

(** The [for attempt in range(5)] loop of [setup_mqtt] and what follows
    it. *)
Fixpoint connect_mqtt (dial : nat → bool) (attempts : list nat) : M bool :=
  match attempts with
  | [] => log ERROR "Final MQTT connection failure.";; mret false
  | attempt :: rest =>
      if dial attempt then log INFO "MQTT setup completed.";; mret true
      else
        log WARNING "Attempt: MQTT setup failed: ";;
        (if (attempt <? 4)%nat then emit (Sleep 5) else mret tt);;
        connect_mqtt dial rest
  end.

Definition setup_mqtt : M bool :=
  let MQTT_BROKER := getenv environ "MQTT_BROKER" "localhost" in
  MQTT_PORT ← match environ !! "MQTT_PORT" with
              | Some text =>
                  match int text with
                  | Some port => mret port
                  | None => raise ValueError
                  end
              | None => mret 1883
              end;
  let MQTT_USER := getenv environ "MQTT_USER" "admin" in
  let MQTT_PASS := getenv environ "MQTT_PASS" "secret" in
  modify (with_mqtt_client true);;
  connect_mqtt (broker MQTT_BROKER MQTT_PORT MQTT_USER MQTT_PASS) (seq 0 5).

(** [lifespan] up to its [yield]: when this returns, the application
    serves requests. *)
Definition lifespan : M unit :=
  influx_success ← setup_influxdb;
  mqtt_success ← setup_mqtt;
  if negb influx_success || negb mqtt_success
  then log ERROR "One or more services failed to start. Check logs and .env file."
  else log INFO "All services started successfully!".

End Startup.

(** *** Message handler *)

Fixpoint contains_Z (s : string) : bool :=
  match s with
  | EmptyString => false
  | String c rest => Ascii.eqb c "Z"%char || contains_Z rest
  end.

(** [s.replace('Z', '+00:00')] *)
Fixpoint replace_Z (s : string) : string :=
  match s with
  | EmptyString => EmptyString
  | String c rest =>
      if Ascii.eqb c "Z"%char then "+00:00" +:+ replace_Z rest
      else String c (replace_Z rest)
  end.

Definition is_Z (v : value) : bool :=
  match v with VStr s => String.eqb s "Z" | _ => false end.

(** Lines 77-82.  [fromisoformat] is [datetime.fromisoformat], [None] for a
    [ValueError].  On a value that is not a string, ['Z' in ts_str] raises
    a [TypeError] (numbers) or is a membership test (lists, dictionaries)
    followed by a failing [.replace] or a failing [fromisoformat]. *)
Definition point_time_of (fromisoformat : string → option Z)
    (ts_str : value) (now : Z) : outcome Z :=
  if truthy ts_str then
    match ts_str with
    | VStr s =>
        let s := if contains_Z s then replace_Z s else s in
        match fromisoformat s with
        | Some t => Returned t
        | None => Raised ValueError
        end
    | VList l => Raised (if existsb is_Z l then AttributeError else TypeError)
    | VDict d =>
        Raised (if bool_decide (is_Some (d !! "Z")) then AttributeError
                else TypeError)
    | _ => Raised TypeError
    end
  else Returned now.

(** Line 96: [data.get("conductivity", 0) > 0.5 or data.get("voltage", 0) > 2.05] *)
Definition breach (data : value) : outcome bool :=
  conductivity ← get data "conductivity" (VInt 0);
  hit ← gt conductivity (NFloat 0.5);
  if hit : bool then mret true
  else
    voltage ← get data "voltage" (VInt 0);
    gt voltage (NFloat 2.05).

Definition on_mqtt_message (fromisoformat : string → option Z) (msg : wire)
  : M unit :=
  try_except
    (data ← loads msg;
     log INFO "Received sensor data: ";;
     api ← gets write_api;
     if api : bool then
       ts_str ← lift (get data "timestamp" VNone);
       now ← gets clock;
       point_time ← lift (point_time_of fromisoformat ts_str now);
       temperature ← lift (get data "temperature" (VInt 0));
       voltage ← lift (get data "voltage" (VInt 0));
       current ← lift (get data "current" (VInt 0));
       conductivity ← lift (get data "conductivity" (VInt 0));
       write_async (Point "electrolyzer_metrics" [("host", "electrolyzer_1")]
                      [("temperature", temperature); ("voltage", voltage);
                       ("current", current); ("conductivity", conductivity)]
                      (Instant point_time));;
       log INFO "Sensor data written to InfluxDB.";;
       hit ← lift (breach data);
       let '(predicted_status, health_score) :=
         if hit : bool then ("anomaly", 45) else ("normal", 100) in
       now ← gets clock;
       write_async (Point "ai_predictions" [("host", "electrolyzer_1")]
                      [("predicted_status", VStr predicted_status);
                       ("health_score", VInt health_score)]
                      (Instant now));;
       log INFO "AI prediction written to InfluxDB."
     else log WARNING "InfluxDB API is not available.")
    (λ e,
       if is_JSONDecodeError e then log ERROR "Invalid JSON in MQTT payload: "
       else if is_ValueError e then log ERROR "Invalid timestamp in data: "
       else log ERROR "Failed to process MQTT message: ").

(** *** Health endpoint *)

(** ["not_connected" in status.values()] *)
Definition has_not_connected (status : gmap string string) : bool :=
  bool_decide (map_Exists (λ _ v, v = "not_connected") status).

Definition health_check : M (gmap string string) :=
  let status : gmap string string := {[ "status" := "ok" ]} in
  client ← gets influx_client;
  status ← (if client : bool then
              try_except
                (emit SinkQuery;;
                 answered ← gets sink_answers;
                 if answered : bool
                 then mret (<["influxdb" := "connected"]> status)
                 else raise ApiException)
                (λ e, log WARNING "InfluxDB health check failed: ";;
                      mret (<["influxdb" := "not_connected"]> status))
            else mret (<["influxdb" := "not_connected"]> status));
  client ← gets mqtt_client;
  connected ← gets mqtt_connected;
  let status :=
    if client && connected then <["mqtt" := "connected"]> status
    else <["mqtt" := "not_connected"]> status in
  mret (if has_not_connected status
        then <["status" := "degraded"]> status
        else status).

(** *** Data endpoint *)

(** A record of a query result, as far as [get_latest_data] reads it:
    [get_measurement()], [get_time()] and [values]. *)
Record flux_record := FluxRecord {
  get_measurement : string;
  get_time : Z;
  values : value
}.

(** The three shapes of the dictionary [get_latest_data] returns, by its
    only key; an entry of [latest_data] is the dictionary of the three
    things read from a record. *)
Inductive data_reply :=
| ReplyError (error : string)
| ReplyMessage (message : string)
| ReplyLatest (latest_data : list flux_record).

(** [get_latest_data].  [tables] is what the store answers to the query
    when it answers, [reason] the text of the exception when it does
    not. *)
Definition get_latest_data (tables : list (list flux_record))
    (reason : string) : M data_reply :=
  client ← gets influx_client;
  if negb client then mret (ReplyError "InfluxDB not connected")
  else
    try_except
      (emit SinkQuery;;
       answered ← gets sink_answers;
       if answered : bool then
         if match tables with [] => false | _ => true end
         then mret (ReplyLatest (concat tables))
         else mret (ReplyMessage "No data found in the last hour")
       else raise ApiException)
      (λ e, log ERROR "Error querying data: ";;
            mret (ReplyError reason)).

End ElectrolyzerBackend.

(** ** main.py: start-up, authentication and the read endpoint *)

Module MainApp.
Import Py Rt.

(** *** Start-up *)

(** The [for attempt in range(3)] loop of [setup_influxdb] and what
    follows it; one pass through the [try] body ends as in
    [electrolyzer_backend]. *)
Fixpoint connect_influx (ctor : nat → ElectrolyzerBackend.built)
    (attempts : list nat) : M bool :=
  match attempts with
  | [] => log ERROR "Final failure in InfluxDB";; mret false
  | attempt :: rest =>
      match ctor attempt with
      | ElectrolyzerBackend.Built =>
          modify (with_influx true true);;
          log INFO "InfluxDB connected in Backend!";;
          mret true
      | failed =>
          (match failed with
           | ElectrolyzerBackend.ApiRaises =>
               modify (λ s, with_influx true (write_api s) s)
           | _ => mret tt
           end);;
          log WARNING "Attempt: failed to connect to InfluxDB: ";;
          emit (Sleep 5);;
          connect_influx ctor rest
      end
  end.

(** One pass through the [try] body of [setup_mqtt]: the client
    constructor raises, or [connect] (or [loop_start]) raises after the
    client global is assigned, or the client is connected. *)
Inductive dialled := ClientRaises | ConnectRaises | Connected.

(** The [for attempt in range(3)] loop of [setup_mqtt] and what follows
    it. *)
Fixpoint connect_mqtt (dial : nat → dialled) (attempts : list nat) : M bool :=
  match attempts with
  | [] => log ERROR "Final failure in MQTT";; mret false
  | attempt :: rest =>
      match dial attempt with
      | Connected =>
          modify (with_mqtt_client true);;
          log INFO "MQTT setup complete in Backend.";;
          mret true
      | failed =>
          (match failed with
           | ConnectRaises => modify (with_mqtt_client true)
           | _ => mret tt
           end);;
          log WARNING "Attempt: MQTT setup failed: ";;
          emit (Sleep 5);;
          connect_mqtt dial rest
      end
  end.

Section Service.

(** The settings read at import; the outcome of building the store
    client, and of building and connecting the MQTT client, with the
    given settings at the given attempt; what fitting the model comes to;
    [jwt.decode(token, key, algorithms=["HS256"])], [None] for a
    [JWTError]. *)
Variable cfg : Main.config.
Variable influx : string → string → string → nat → ElectrolyzerBackend.built.
Variable broker : string → Z → string → string → nat → dialled.
Variable fit : outcome estimator.
Variable jwt_decode : string → string → option value.

Definition setup_influxdb : M bool :=
  connect_influx
    (influx (Main.INFLUX_URL cfg) (Main.INFLUX_TOKEN cfg) (Main.INFLUX_ORG cfg))
    (seq 0 3).

Definition setup_mqtt : M bool :=
  connect_mqtt
    (broker (Main.MQTT_BROKER cfg) (Main.MQTT_PORT cfg) (Main.MQTT_USER cfg)
            (Main.MQTT_PASS cfg))
    (seq 0 3).

(** [startup_event]: the results of the two set-ups are not looked at. *)
Definition startup_event : M unit :=
  setup_influxdb;;
  setup_mqtt;;
  Main.load_ai_model fit.

(** *** Authentication *)

(** [verify_token], given the bearer token that [HTTPBearer] extracted. *)
Definition verify_token (credentials : string) : M value :=
  match jwt_decode credentials (Main.SECRET_KEY cfg) with
  | Some payload => mret payload
  | None => raise (HTTPException 401)
  end.

(** An endpoint declared with [Depends(verify_token)]: the dependency
    runs first and the endpoint gets its result. *)
Definition depends {A} (credentials : string) (endpoint : value → M A) : M A :=
  current_user ← verify_token credentials;
  endpoint current_user.

(** *** Endpoints *)

Definition get_latest_sensors (current_user : value) : M value :=
  data ← gets latest_data;
  if truthy data then mret data else raise (HTTPException 404).

(** [/sensors/latest] and [/predict] as the framework serves them. *)
Definition sensors_latest (credentials : string) : M value :=
  depends credentials get_latest_sensors.

Definition predict (credentials : string) : M Main.prediction :=
  depends credentials (λ current_user, Main.predict_anomaly).

End Service.

End MainApp.

(** ** data_simulator.py *)

Module DataSimulator.
Import Py Rt.

(** [max(a, b)] on floats: [b] when [b > a], else [a]. *)
Definition fmax (a b : float) : float := if (a <? b)%float then b else a.

Section Generate.

(** [round(x, 2)]; the value of the global [time_to_fail]; the k-th call
    of [time.time()] and the k-th call of [random.uniform] (with its
    bounds) in one call of [generate_data]. *)
Variable round2 : float → float.
Variable time_to_fail : float.
Variable time : nat → float.
Variable uniform : nat → float → float → float.

Definition reading_of (temp voltage current conductivity stamp : float)
    (scenario : string) : gmap string value :=
  <["temperature" := VFloat (round2 temp)]>
    (<["voltage" := VFloat (round2 voltage)]>
       (<["current" := VFloat (round2 current)]>
          (<["conductivity" := VFloat (round2 conductivity)]>
             (<["timestamp" := VFloat stamp]>
                (<["scenario" := VStr scenario]> ∅))))).

(** [generate_data]; [None] stands for the [UnboundLocalError] that the
    [return] raises when the scenario is none of the four. *)
Definition generate_data (scenario : string) : option (gmap string value) :=
  let base_temp := 75%float in
  let base_voltage := 1.9%float in
  let base_current := 550%float in
  let base_conductivity := 0.3%float in
  if String.eqb scenario "normal" then
    let temp := (base_temp + uniform 0 (-1) 1)%float in
    let voltage := (base_voltage + uniform 1 (-0.02) 0.02)%float in
    let current := (base_current + uniform 2 (-5) 5)%float in
    let conductivity := (base_conductivity + uniform 3 (-0.01) 0.01)%float in
    Some (reading_of temp voltage current conductivity (time 0%nat) scenario)
  else if String.eqb scenario "chemical_pollution" then
    let temp := (base_temp + uniform 0 (-1) 1)%float in
    let voltage := (base_voltage + uniform 1 0.1 0.2)%float in
    let current := (base_current + uniform 2 (-5) 5)%float in
    let conductivity :=
      (base_conductivity + 0.05 * (time 0%nat - time_to_fail) / 60)%float in
    let conductivity := fmax conductivity 0.5 in
    Some (reading_of temp voltage current conductivity (time 1%nat) scenario)
  else if String.eqb scenario "electrode_corrosion" then
    let temp := (base_temp + uniform 0 (-1) 1)%float in
    let voltage :=
      (base_voltage + 0.05 * (time 0%nat - time_to_fail) / 60)%float in
    let voltage := fmax voltage 2.0 in
    let current := (base_current + uniform 1 (-5) 5)%float in
    let conductivity := (base_conductivity + uniform 2 (-0.01) 0.01)%float in
    Some (reading_of temp voltage current conductivity (time 1%nat) scenario)
  else if String.eqb scenario "cooling_failure" then
    let temp := (base_temp + 0.5 * (time 0%nat - time_to_fail))%float in
    let voltage := (base_voltage + (temp - base_temp) * 0.01)%float in
    let current := (base_current + uniform 0 (-5) 5)%float in
    let conductivity := (base_conductivity + uniform 1 (-0.01) 0.01)%float in
    Some (reading_of temp voltage current conductivity (time 1%nat) scenario)
  else None.

End Generate.

(** What one pass of the main loop draws: the clock read by the loop's
    test, the index [random.choice] picks, and the clock readings and
    uniform draws of [generate_data]. *)
Record draw := Draw {
  now : float;
  pick : nat;
  time : nat → float;
  uniform : nat → float → float → float
}.

(** [random.choice] over the three failure scenarios. *)
Definition choice (pick : nat) : string :=
  match (pick mod 3)%nat with
  | 0%nat => "chemical_pollution"
  | 1%nat => "electrode_corrosion"
  | _ => "cooling_failure"
  end.

(** One pass of the [while True] loop: the new value of the global
    [failure_scenario] and the dictionary handed to [json.dumps] and
    [client.publish]. *)
Definition pass (round2 : float → float) (time_to_fail : float)
    (failure_scenario : string) (d : draw)
  : string * option (gmap string value) :=
  let failure_scenario :=
    if (time_to_fail <? now d)%float && String.eqb failure_scenario "normal"
    then choice (pick d) else failure_scenario in
  (failure_scenario,
   generate_data round2 time_to_fail (time d) (uniform d) failure_scenario).

(** The loop over the given passes: what was published, in order, until
    the passes are used up or [generate_data] raises. *)
Fixpoint loop (round2 : float → float) (time_to_fail : float)
    (failure_scenario : string) (draws : list draw)
  : list (gmap string value) :=
  match draws with
  | [] => []
  | d :: rest =>
      match pass round2 time_to_fail failure_scenario d with
      | (failure_scenario, Some data) =>
          data :: loop round2 time_to_fail failure_scenario rest
      | (_, None) => []
      end
  end.

End DataSimulator.

(** ** The specification's side *)

Module Spec.
Import Py Rt.

(** *** Threshold rules (section 4.3) *)

(** A rule: the field it reads, its bound, the status it gives. *)
Record rule := Rule { field : string; bound : num; alert : string }.

(** Conductivity first, then voltage, then temperature. *)
Definition rules : list rule :=
  [ Rule "conductivity" (NFloat 0.5) "water_contamination_alert";
    Rule "voltage" (NFloat 2.2) "voltage_anomaly_alert";
    Rule "temperature" (NInt 90) "overheating_alert" ].

(** First match wins; the rules after the first match are not looked at. *)
Fixpoint first_match (rs : list rule) (reading : value) : outcome string :=
  match rs with
  | [] => mret "normal"
  | r :: rest =>
      v ← getitem reading (field r);
      hit ← gt v (bound r);
      if hit : bool then mret (alert r) else first_match rest reading
  end.

(** *** Health score (section 4.4) *)

(** [clamp(lo, hi, x)] *)
Definition clamp (lo hi x : num) : num :=
  if num_ltb x lo then lo else if num_gtb x hi then hi else x.

Definition ALERT_CAP : Z := 45.

(** *** Reading what was written *)

Definition field_of (key : string) (p : point) : option value :=
  snd <$> find (λ kv, String.eqb kv.1 key) (fields p).

(** A record either carries no health score or one within [0, 100]. *)
Definition health_score_bounded (p : point) : Prop :=
  ∀ v, field_of "health_score" p = Some v →
    ∃ n, as_num v = Some n ∧
         num_leb (NInt 0) n = true ∧ num_leb n (NInt 100) = true.

(** The assessment record of [backend_api.on_message]. *)
Definition ai_point (status : string) (now : Z) : point :=
  Point "ai_predictions" [("host", "electrolyzer_1")]
    [("predicted_status", VStr (BackendApi.ai_placeholder status).1);
     ("health_score", VInt (BackendApi.ai_placeholder status).2)]
    (Instant now).

(** The assessment record of [electrolyzer_backend.on_mqtt_message]. *)
Definition prediction_point (hit : bool) (now : Z) : point :=
  Point "ai_predictions" [("host", "electrolyzer_1")]
    [("predicted_status", VStr (if hit then "anomaly" else "normal"));
     ("health_score", VInt (if hit then 45 else 100))]
    (Instant now).

(** Whether the reading's entry under [key] is a number above [bound], an
    absent entry counting as 0; false for everything that cannot be
    compared. *)
Definition above (reading : value) (key : string) (bound : num) : bool :=
  match reading with
  | VDict d =>
      match as_num (default (VInt 0) (d !! key)) with
      | Some n => num_gtb n bound
      | None => false
      end
  | _ => false
  end.

(** The assessment record of [main.predict_anomaly]. *)
Definition scorer_point (label : Z) (prob : float) (now : Z) : point :=
  Point "ai_predictions" []
    [("health_score", of_num (Main.health_of prob));
     ("predicted_status", VStr (if label =? -1 then "anomaly" else "normal"))]
    (IsoText now).

(** *** Sentences of the specification that the code does not follow,
        stated as they are written *)

(** Section 4.5: a handler that writes assessments gives no reading with
    a threshold status other than normal a health score above the cap. *)
Definition capped (handler : wire → M unit) : Prop :=
  ∀ (reading : value) (status : string) (w w' : proc) (p : point) (v : value),
    first_match rules reading = Returned status →
    status ≠ "normal" →
    handler (Json reading) w = (Returned tt, w') →
    p ∈ drop (length (sink w)) (sink w') →
    field_of "health_score" p = Some v →
    ∃ n, as_num v = Some n ∧ num_leb n (NInt ALERT_CAP) = true.

Definition threshold_alert_always_capped : Prop :=
  capped BackendApi.on_message ∧
  ∀ fromisoformat : string → option Z,
    capped (ElectrolyzerBackend.on_mqtt_message fromisoformat).

(** Section 4.2: an absent or unparsable timestamp is replaced by the
    current process time and the message is kept. *)
Definition timestamp_always_synthesized : Prop :=
  ∀ (fromisoformat : string → option Z) (d : gmap string value) (w : proc),
    write_api w = true →
    (d !! "timestamp" = None ∨
     ∃ s, d !! "timestamp" = Some (VStr s) ∧
          fromisoformat
            (if ElectrolyzerBackend.contains_Z s
             then ElectrolyzerBackend.replace_Z s else s) = None) →
    ∃ sp rest w',
      ElectrolyzerBackend.on_mqtt_message fromisoformat (Json (VDict d)) w
        = (Returned tt, w') ∧
      sink w' = (sink w ++ sp :: rest)%list ∧
      measurement sp = "electrolyzer_metrics" ∧
      time sp = Instant (clock w).

(** Section 4.4: without a model the scorer answers normal with score 100. *)
Definition scorer_has_safe_default : Prop :=
  ∀ w : proc, model w = None →
    ∃ p w', Main.predict_anomaly w = (Returned p, w') ∧
            Main.status p = "normal" ∧ Main.health_score p = NInt 100.

(** Section 4.8: ok exactly when both are connected, and no effect. *)
Definition health_is_pure : Prop :=
  ∀ w : proc,
    ∃ status : gmap string string,
      ElectrolyzerBackend.health_check w = (Returned status, w) ∧
      (status !! "status" = Some "ok" ↔
       status !! "mqtt" = Some "connected" ∧
       status !! "influxdb" = Some "connected") ∧
      (status !! "status" = Some "ok" ∨ status !! "status" = Some "degraded").

(** Section 7: a missing secret or address stops start-up. *)
Definition required_settings : list string :=
  ["INFLUX_TOKEN"; "INFLUX_URL"; "MQTT_BROKER"; "MQTT_PASS"].

Definition missing_setting_is_fatal : Prop :=
  ∀ (environ : gmap string string) (int : string → option Z)
    (influx : string → string → string → nat → ElectrolyzerBackend.built)
    (broker : string → Z → string → string → nat → bool) (w : proc),
    (∃ key, key ∈ required_settings ∧ environ !! key = None) →
    ∃ e w', ElectrolyzerBackend.lifespan environ int influx broker w
              = (Raised e, w').

(** *** Inputs used in the examples *)

(** Agrees with [datetime.fromisoformat] on the strings it is applied to
    below: one well-formed instant, everything else refused. *)
Definition fromisoformat_sample (s : string) : option Z :=
  if String.eqb s "2024-01-01T00:00:00+00:00" then Some 1704067200 else None.

Definition reading (conductivity voltage temperature : float)
  : gmap string value :=
  <["conductivity" := VFloat conductivity]>
    (<["voltage" := VFloat voltage]>
       (<["temperature" := VFloat temperature]>
          (<["current" := VInt 550]> ∅))).

(** The same reading with a timestamp. *)
Definition stamped (stamp : string) (d : gmap string value)
  : gmap string value :=
  <["timestamp" := VStr stamp]> d.

(** What [simulator.py] publishes: no conductivity. *)
Definition simulator_reading : gmap string value :=
  <["temperature" := VFloat 70.12]>
    (<["pressure" := VFloat 30.5]>
       (<["voltage" := VFloat 1.9]>
          (<["current" := VFloat 101.3]>
             (<["flow_rate" := VFloat 5.02]>
                (<["timestamp" := VStr "2024-01-01T00:00:00"]> ∅))))).

(** A process whose store clients were set up. *)
Definition serving (now : Z) : proc := with_influx true true (boot now).

(** A fitted model: every reading is an inlier at distance 0.25. *)
Definition forest_sample : estimator :=
  Estimator (λ _, Returned 1) (λ _, Returned 0.25%float).

(** A process of [main] with a model and a latest reading. *)
Definition scoring (now : Z) : proc :=
  with_model (Some forest_sample)
    (with_latest_data (VDict simulator_reading) (serving now)).

End Spec.

(** ** Helpers for the further properties *)

Module Props.
Import Py Rt.

(** The payloads of the messages that decode, in arrival order. *)
Definition decoded (msgs : list wire) : list value :=
  omap (λ msg, match msg with Json v => Some v | _ => None end) msgs.

(** Seconds spent in [asyncio.sleep] according to a trace. *)
Definition waited (events : list event) : Z :=
  foldr (λ ev total, match ev with Sleep s => s + total | _ => total end)
        0 events.


(** How many of the given attempts fail before the first one that
    succeeds. *)
Fixpoint failures (ok : nat → bool) (attempts : list nat) : nat :=
  match attempts with
  | [] => 0
  | attempt :: rest => if ok attempt then 0 else S (failures ok rest)
  end.

Definition built_ok (outcome : ElectrolyzerBackend.built) : bool :=
  match outcome with ElectrolyzerBackend.Built => true | _ => false end.

Definition dialled_ok (outcome : MainApp.dialled) : bool :=
  match outcome with MainApp.Connected => true | _ => false end.

(** The globals and the store, without the trace. *)
Definition silent_part (s : proc) :=
  (mqtt_client s, influx_client s, write_api s, latest_data s, model s,
   sink s).

(** The scenarios [data_simulator] knows. *)
Definition failure_scenarios : list string :=
  ["chemical_pollution"; "electrode_corrosion"; "cooling_failure"].

Definition scenario_of (data : gmap string value) : option value :=
  data !! "scenario".

(** How many passes of the simulator's loop come before the first one
    whose clock is past [time_to_fail]. *)
Fixpoint healthy_passes (time_to_fail : float)
    (draws : list DataSimulator.draw) : nat :=
  match draws with
  | [] => 0
  | d :: rest =>
      if (time_to_fail <? DataSimulator.now d)%float then 0%nat
      else S (healthy_passes time_to_fail rest)
  end.

(** The clock reading [generate_data] stamps a reading with: its first
    one under "normal", its second one under a failure (the first one
    went into the drift). *)
Definition stamp_of (time : nat → float) (scenario : string) : float :=
  if String.eqb scenario "normal" then time 0%nat else time 1%nat.

End Props.

(** ** Proofs *)

Import Py Rt.

#[local] Arguments Spec.first_match : simpl never.

Ltac unfold_M :=
  unfold mbind, M_bind, outcome_bind, mret, M_ret, outcome_ret, lift, raise,
    gets, print, log, emit, write_async, modify, try_except, loads in *.

(** Split on the innermost stuck [match] of the goal. *)
Ltac case_step :=
  match goal with
  | |- context [match ?x with _ => _ end] =>
      lazymatch x with
      | context [match _ with _ => _ end] => fail
      | _ => destruct x eqn:?
      end
  end.

(** *** The monad laws, pointwise *)

Lemma M_left_identity {A B} (a : A) (f : A → M B) w : (mret a ≫= f) w = f a w.
Proof. done. Qed.

Lemma M_right_identity {A} (m : M A) w : (m ≫= mret) w = m w.
Proof. unfold_M. by destruct (m w) as [[a|e] w']. Qed.

Lemma M_associative {A B C} (m : M A) (f : A → M B) (g : B → M C) w :
  ((m ≫= f) ≫= g) w = (m ≫= λ a, f a ≫= g) w.
Proof. unfold_M. by destruct (m w) as [[a|e] w']. Qed.

(** *** backend_api: the rule chain *)

Lemma threshold_status_first_match payload w :
  (BackendApi.threshold_status payload w).1
  = Spec.first_match Spec.rules payload.
Proof.
  unfold BackendApi.threshold_status, BackendApi.THRESHOLD_CONDUCTIVITY_HIGH,
    BackendApi.THRESHOLD_VOLTAGE_HIGH, BackendApi.THRESHOLD_TEMP_HIGH,
    Spec.first_match, Spec.rules.
  unfold_M. cbn.
  repeat (case_step; cbn; try reflexivity).
Qed.

Lemma threshold_status_frame payload w :
  let w' := (BackendApi.threshold_status payload w).2 in
  sink w' = sink w ∧ clock w' = clock w ∧ faults w' = faults w.
Proof.
  unfold BackendApi.threshold_status. unfold_M. cbn.
  repeat (case_step; cbn; try done).
Qed.

Lemma first_match_conductivity payload c :
  getitem payload "conductivity" = Returned c →
  gt c BackendApi.THRESHOLD_CONDUCTIVITY_HIGH = Returned true →
  Spec.first_match Spec.rules payload = Returned "water_contamination_alert".
Proof.
  unfold Spec.first_match, Spec.rules, BackendApi.THRESHOLD_CONDUCTIVITY_HIGH.
  unfold_M. cbn. by intros -> ->.
Qed.

Lemma first_match_voltage payload c v :
  getitem payload "conductivity" = Returned c →
  gt c BackendApi.THRESHOLD_CONDUCTIVITY_HIGH = Returned false →
  getitem payload "voltage" = Returned v →
  gt v BackendApi.THRESHOLD_VOLTAGE_HIGH = Returned true →
  Spec.first_match Spec.rules payload = Returned "voltage_anomaly_alert".
Proof.
  unfold Spec.first_match, Spec.rules, BackendApi.THRESHOLD_CONDUCTIVITY_HIGH,
    BackendApi.THRESHOLD_VOLTAGE_HIGH.
  unfold_M. cbn. by intros -> -> -> ->.
Qed.

Lemma first_match_temperature payload c v t :
  getitem payload "conductivity" = Returned c →
  gt c BackendApi.THRESHOLD_CONDUCTIVITY_HIGH = Returned false →
  getitem payload "voltage" = Returned v →
  gt v BackendApi.THRESHOLD_VOLTAGE_HIGH = Returned false →
  getitem payload "temperature" = Returned t →
  ∀ hit, gt t BackendApi.THRESHOLD_TEMP_HIGH = Returned hit →
  Spec.first_match Spec.rules payload
    = Returned (if hit then "overheating_alert" else "normal").
Proof.
  unfold Spec.first_match, Spec.rules, BackendApi.THRESHOLD_CONDUCTIVITY_HIGH,
    BackendApi.THRESHOLD_VOLTAGE_HIGH, BackendApi.THRESHOLD_TEMP_HIGH.
  unfold_M. cbn. intros -> -> -> -> -> hit ->. by destruct hit.
Qed.

(** Every way [on_message] can end, and what it leaves in the store. *)
Lemma on_message_cases msg w :
  match BackendApi.on_message msg w with
  | (Returned _, w') =>
      ∃ payload status sp,
        msg = Json payload ∧
        Spec.first_match Spec.rules payload = Returned status ∧
        measurement sp = "electrolyzer_metrics" ∧
        Spec.field_of "health_score" sp = None ∧
        sink w' = (sink w ++ [sp; Spec.ai_point status (clock w)])%list
  | (Raised e, w') =>
      sink w' = sink w ∨
      ∃ sp, measurement sp = "electrolyzer_metrics" ∧
            Spec.field_of "health_score" sp = None ∧
            sink w' = (sink w ++ [sp])%list
  end.
Proof.
  unfold BackendApi.on_message. unfold_M.
  destruct msg as [| |payload]; cbn; try (by left).
  pose proof (threshold_status_first_match payload
                (record (Print "Received: ") w)) as Hs.
  pose proof (threshold_status_frame payload
                (record (Print "Received: ") w)) as Hf.
  destruct (BackendApi.threshold_status payload _) as [[status|e] w1];
    cbn [fst snd] in *; destruct Hf as (Hsink & Hclock & _); [|by left].
  cbn in Hsink, Hclock. unfold Spec.ai_point.
  destruct (BackendApi.ai_placeholder status) as [label score] eqn:Hai.
  unfold write_sync.
  repeat (case_step; cbn).
  all: first
    [ by left; congruence
    | right; eexists; split; [|split; [|rewrite Hsink; reflexivity]];
      reflexivity
    | exists payload, status; eexists;
      rewrite Hai, Hsink, Hclock, <- app_assoc; repeat split; done ].
Qed.

Lemma ai_placeholder_cases status :
  (status = "normal" ∧ BackendApi.ai_placeholder status = ("Normal", 99)) ∨
  (status ≠ "normal" ∧
   BackendApi.ai_placeholder status = ("Anomaly Detected", 45)).
Proof.
  unfold BackendApi.ai_placeholder.
  destruct (String.eqb_spec status "normal"); [left|right]; done.
Qed.

(** When [on_message] runs to the end: all five fields are there, the
    fields the rules look at are numbers, and the store takes both
    records. *)
Lemma on_message_completes (d : gmap string value) w c v t :
  d !! "conductivity" = Some c → d !! "voltage" = Some v →
  d !! "temperature" = Some t →
  is_Some (d !! "current") → is_Some (d !! "timestamp") →
  is_Some (as_num c) → is_Some (as_num v) → is_Some (as_num t) →
  faults w = [] →
  ∃ w', BackendApi.on_message (Json (VDict d)) w = (Returned tt, w').
Proof.
  intros Hc Hv Ht [cur Hcur] [ts Hts] [nc Hnc] [nv Hnv] [nt Hnt] Hfaults.
  unfold BackendApi.on_message, BackendApi.threshold_status, write_sync, gt.
  unfold_M. cbn. rewrite Hc, Hv, Ht, Hcur, Hts, Hnc, Hnv, Hnt. cbn.
  repeat (cbn; rewrite ?Hfaults; cbn; try case_step).
  all: first [by eexists | by rewrite Hfaults in *].
Qed.

(** C1.  The rule chain of [backend_api.on_message] is the ordered
    first-match evaluation of the rules conductivity, voltage, temperature:
    it gives the status of the first rule that matches.  In particular a
    reading whose conductivity is above 0.5 gets the contamination alert,
    whatever its voltage and temperature entries are (or are not). *)
Theorem threshold_priority_order (payload : value) (w : proc) :
  (BackendApi.threshold_status payload w).1
    = Spec.first_match Spec.rules payload ∧
  ∀ c, getitem payload "conductivity" = Returned c →
       gt c (NFloat 0.5) = Returned true →
       (BackendApi.threshold_status payload w).1
         = Returned "water_contamination_alert".
Proof.
  split; [apply threshold_status_first_match|].
  intros c Hc Hgt. rewrite threshold_status_first_match.
  by eapply first_match_conductivity.
Qed.

Lemma threshold_priority_order_witness :
  getitem (VDict (Spec.reading 0.6 9.9 250)) "conductivity"
    = Returned (VFloat 0.6) ∧
  gt (VFloat 0.6) (NFloat 0.5) = Returned true ∧
  (BackendApi.threshold_status (VDict (Spec.reading 0.6 9.9 250)) (boot 0)).1
    = Returned "water_contamination_alert".
Proof.
  split; [reflexivity|]. split; [reflexivity|].
  apply (threshold_priority_order (VDict (Spec.reading 0.6 9.9 250)) (boot 0));
    reflexivity.
Defined.

(** *** electrolyzer_backend: the message handler *)

(** The handler never raises; it leaves the globals alone and adds to the
    store nothing, the reading, or the reading and its assessment. *)
Lemma on_mqtt_message_cases fromisoformat msg w :
  ∃ w',
    ElectrolyzerBackend.on_mqtt_message fromisoformat msg w = (Returned tt, w') ∧
    latest_data w' = latest_data w ∧
    (sink w' = sink w ∨
     (∃ sp, measurement sp = "electrolyzer_metrics" ∧
            Spec.field_of "health_score" sp = None ∧
            sink w' = (sink w ++ [sp])%list) ∨
     (∃ data sp hit,
        msg = Json data ∧
        ElectrolyzerBackend.breach data = Returned hit ∧
        measurement sp = "electrolyzer_metrics" ∧
        Spec.field_of "health_score" sp = None ∧
        sink w' = (sink w ++ [sp; Spec.prediction_point hit (clock w)])%list)).
Proof.
  unfold ElectrolyzerBackend.on_mqtt_message. unfold_M.
  destruct msg as [| |data]; cbn; try (eexists; repeat split; by left).
  destruct (write_api w); cbn; [|eexists; repeat split; by left].
  destruct (ElectrolyzerBackend.breach data) as [hit|e] eqn:Hbreach.
  all: repeat (case_step; cbn).
  all: eexists; split; [reflexivity|]; split; [reflexivity|]; cbn.
  all: first
    [ by left
    | right; right;
      match goal with
      | |- context [((sink _ ++ [?sp]) ++ _)%list] =>
          exists data, sp; eexists; rewrite <- app_assoc;
          repeat split; first [exact Hbreach | reflexivity]
      end
    | right; left;
      match goal with
      | |- context [(sink _ ++ [?sp])%list] => by exists sp
      end ].
Qed.

(** *** main: the message handler and the scorer *)

Lemma main_on_mqtt_message_cases msg w :
  ∃ w',
    Main.on_mqtt_message msg w = (Returned tt, w') ∧
    model w' = model w ∧
    (latest_data w' = latest_data w ∨
     ∃ data, msg = Json data ∧ latest_data w' = data) ∧
    (sink w' = sink w ∨
     ∃ sp, measurement sp = "sensor_data" ∧
           Spec.field_of "health_score" sp = None ∧
           sink w' = (sink w ++ [sp])%list).
Proof.
  unfold Main.on_mqtt_message. unfold_M.
  destruct msg as [| |data]; cbn;
    try (eexists; repeat split; by left).
  repeat (case_step; cbn).
  all: eexists; split; [reflexivity|]; split; [reflexivity|]; cbn.
  all: split; [right; by exists data|].
  all: first
    [ by left
    | right;
      match goal with
      | |- context [(sink _ ++ [?sp])%list] => by exists sp
      end ].
Qed.

Lemma predict_anomaly_cases w :
  match Main.predict_anomaly w with
  | (Returned p, w') =>
      ∃ m features prob label,
        model w = Some m ∧
        truthy (latest_data w) = true ∧
        predict m features = Returned label ∧
        decision_function m features = Returned prob ∧
        p = Main.Prediction (if label =? -1 then "anomaly" else "normal")
                            (Main.health_of prob) (abs prob) ∧
        (sink w' = sink w ∨
         sink w' = (sink w ++ [Spec.scorer_point label prob (clock w)])%list)
  | (Raised e, w') => w' = w
  end.
Proof.
  unfold Main.predict_anomaly. unfold_M. cbn.
  destruct (truthy (latest_data w)) eqn:Htruthy; cbn; [|done].
  destruct (model w) as [m|] eqn:Hmodel; [|done].
  repeat (case_step; cbn); try done.
  all: eexists m, _, _, _; unfold Spec.scorer_point;
    repeat match goal with H : (_ =? _) = _ |- _ => rewrite H; clear H end;
    repeat split; try eassumption; try done.
  all: first [by left | by right].
Qed.

(** *** Comparisons with a binary64 *)

Lemma SFcompare_refl f : f ≠ S754_nan → SFcompare f f = Some Eq.
Proof.
  destruct f as [s|s| |s m e]; cbn; try done; intros _.
  - by destruct s.
  - rewrite Z.compare_refl.
    change (PosDef.Pos.compare_cont Eq m m) with (Pos.compare m m).
    rewrite Pos.compare_refl. by destruct s.
Qed.

Lemma is_nan_true x : is_nan x = true → Prim2SF x = S754_nan.
Proof.
  unfold is_nan. rewrite FloatAxioms.eqb_spec. unfold SFeqb. intros H.
  destruct (Prim2SF x) eqn:Hx; try done;
    by rewrite SFcompare_refl in H.
Qed.

Lemma is_nan_false x :
  is_nan x = false → Prim2SF x ≠ S754_nan ∧ cmp_float x x = Some Eq.
Proof.
  unfold is_nan, cmp_float.
  rewrite FloatAxioms.eqb_spec, FloatAxioms.compare_spec. unfold SFeqb.
  intros H. split.
  - intros Hnan. by rewrite Hnan in H.
  - by destruct (SFcompare _ _) as [[]|].
Qed.

Lemma cmp_Z_float_nan z x : Prim2SF x = S754_nan → cmp_Z_float z x = None.
Proof. unfold cmp_Z_float. by intros ->. Qed.

Lemma cmp_Z_float_some z x :
  Prim2SF x ≠ S754_nan → ∃ c, cmp_Z_float z x = Some c.
Proof. unfold cmp_Z_float. destruct (Prim2SF x); try done; eauto. Qed.

(** If [b <= x] then every integer below [b] is below [x]. *)
Lemma cmp_Z_float_below a b x :
  a < b →
  cmp_Z_float b x = Some Lt ∨ cmp_Z_float b x = Some Eq →
  cmp_Z_float a x = Some Lt.
Proof.
  unfold cmp_Z_float. intros Hab.
  destruct (Prim2SF x) as [s|s| |s m e]; cbv beta iota.
  - intros [H|H]; injection H as H; f_equal; apply Z.compare_lt_iff.
    + rewrite Z.compare_lt_iff in H. lia.
    + rewrite Z.compare_eq_iff in H. lia.
  - destruct s; intros [H|H]; done.
  - intros [H|H]; done.
  - cbv zeta. generalize (if s then Z.neg m else Z.pos m). intros mz.
    destruct (0 <=? e) eqn:He.
    + intros [H|H]; injection H as H; f_equal; apply Z.compare_lt_iff.
      * rewrite Z.compare_lt_iff in H. lia.
      * rewrite Z.compare_eq_iff in H. lia.
    + apply Z.leb_gt in He.
      assert (0 < 2 ^ (- e)) as Hpow by (apply Z.pow_pos_nonneg; lia).
      intros [H|H]; injection H as H; f_equal; apply Z.compare_lt_iff.
      * rewrite Z.compare_lt_iff in H. nia.
      * rewrite Z.compare_eq_iff in H. nia.
Qed.

(** *** main: the health score *)

Lemma health_of_range prob :
  num_leb (NInt 0) (Main.health_of prob) = true ∧
  num_leb (Main.health_of prob) (NInt 100) = true.
Proof.
  unfold Main.health_of, py_max, py_min, num_gtb, num_ltb, num_leb.
  generalize ((1 - abs prob) * 100)%float. intros x.
  cbn [num_compare].
  destruct (cmp_Z_float 100 x) as [[]|] eqn:H100; cbn; try done.
  destruct (cmp_Z_float 0 x) as [[]|] eqn:H0; cbn; try done.
  by rewrite H0, H100.
Qed.

Lemma health_of_clamp prob :
  is_nan ((1 - abs prob) * 100)%float = false →
  num_eqb (Main.health_of prob)
          (Spec.clamp (NInt 0) (NInt 100) (NFloat ((1 - abs prob) * 100)%float))
    = true.
Proof.
  unfold Main.health_of, Spec.clamp, py_max, py_min, num_gtb, num_ltb, num_eqb.
  generalize ((1 - abs prob) * 100)%float. intros x Hnan.
  apply is_nan_false in Hnan as [Hne Hrefl].
  destruct (cmp_Z_float_some 0 x Hne) as [c0 H0].
  destruct (cmp_Z_float_some 100 x Hne) as [c100 H100].
  pose proof (cmp_Z_float_below 0 100 x ltac:(lia)) as Hbelow.
  cbn [num_compare]. rewrite H0, H100 in *.
  destruct c100, c0; cbn; rewrite ?H0, ?H100, ?Hrefl; cbn;
    rewrite ?H0, ?H100, ?Hrefl; try done.
  all: first [ by specialize (Hbelow (or_introl eq_refl))
             | by specialize (Hbelow (or_intror eq_refl)) ].
Qed.

Lemma health_of_nan prob :
  is_nan ((1 - abs prob) * 100)%float = true →
  Main.health_of prob = NInt 100.
Proof.
  intros Hnan%is_nan_true.
  unfold Main.health_of, py_max, py_min, num_gtb, num_ltb.
  cbn [num_compare]. by rewrite (cmp_Z_float_nan _ _ Hnan).
Qed.

Lemma as_num_of_num n : as_num (of_num n) = Some n.
Proof. by destruct n. Qed.

Lemma Forall_bounded_app (old new : list point) :
  Forall Spec.health_score_bounded old →
  Forall Spec.health_score_bounded new →
  Forall Spec.health_score_bounded (old ++ new).
Proof. intros. by apply Forall_app. Qed.

Lemma bounded_without_score p :
  Spec.field_of "health_score" p = None → Spec.health_score_bounded p.
Proof. intros Hnone v Hv. congruence. Qed.

Lemma ai_point_bounded status now :
  Spec.health_score_bounded (Spec.ai_point status now).
Proof.
  intros v. unfold Spec.ai_point, Spec.field_of. cbn. intros [= <-].
  destruct (ai_placeholder_cases status) as [[_ ->]|[_ ->]];
    eexists; split; try reflexivity; done.
Qed.

Lemma prediction_point_bounded hit now :
  Spec.health_score_bounded (Spec.prediction_point hit now).
Proof.
  intros v. unfold Spec.prediction_point, Spec.field_of. cbn. intros [= <-].
  destruct hit; eexists; split; try reflexivity; done.
Qed.

Lemma scorer_point_bounded label prob now :
  Spec.health_score_bounded (Spec.scorer_point label prob now).
Proof.
  intros v. unfold Spec.scorer_point, Spec.field_of. cbn. intros [= <-].
  exists (Main.health_of prob). split; [apply as_num_of_num|].
  apply health_of_range.
Qed.

Create HintDb bounded.

#[local] Hint Resolve bounded_without_score ai_point_bounded
  prediction_point_bounded scorer_point_bounded : bounded.

(** *** The two rule sets *)

Lemma SFcompare_above x m1 m2 e :
  (m2 < m1)%positive →
  SFcompare x (S754_finite false m1 e) = Some Gt →
  SFcompare x (S754_finite false m2 e) = Some Gt.
Proof.
  intros Hlt. destruct x as [s|s| |s m e']; cbn; try done.
  destruct s; [done|].
  destruct (e' ?= e); try done.
  rewrite !Pos.compare_cont_spec. cbn.
  destruct (m ?= m1)%positive eqn:Hm; try done. intros _.
  rewrite Pos.compare_gt_iff in Hm.
  assert ((m ?= m2)%positive = Gt) as ->; [|done].
  apply Pos.compare_gt_iff. lia.
Qed.

Lemma float_above_2_2_above_2_05 f :
  cmp_float f 2.2 = Some Gt → cmp_float f 2.05 = Some Gt.
Proof.
  unfold cmp_float. rewrite !FloatAxioms.compare_spec.
  change (Prim2SF 2.2) with (S754_finite false 4953959590107546 (-51)).
  change (Prim2SF 2.05) with (S754_finite false 4616189618054758 (-51)).
  destruct (SFcompare (Prim2SF f) (S754_finite false 4953959590107546 (-51)))
    as [[]|] eqn:Hf; try (intros H; discriminate H).
  intros _.
  rewrite (SFcompare_above _ 4953959590107546 4616189618054758 (-51)
             ltac:(lia) Hf).
  reflexivity.
Qed.

(** The voltage bound of [electrolyzer_backend] lies below the one of
    [backend_api]. *)
Lemma num_above_2_2_above_2_05 n :
  num_gtb n (NFloat 2.2) = true → num_gtb n (NFloat 2.05) = true.
Proof.
  unfold num_gtb. destruct n as [z|f]; cbn [num_compare].
  - unfold cmp_Z_float.
    change (Prim2SF 2.2) with (S754_finite false 4953959590107546 (-51)).
    change (Prim2SF 2.05) with (S754_finite false 4616189618054758 (-51)).
    cbv beta iota zeta.
    change (0 <=? -51) with false. cbv iota.
    generalize (z * 2 ^ (- (-51))). intros x.
    destruct (x ?= 4953959590107546) eqn:Hx;
      try (intros H; discriminate H).
    intros _. rewrite Z.compare_gt_iff in Hx.
    assert ((x ?= 4616189618054758) = Gt) as ->; [|reflexivity].
    apply Z.compare_gt_iff. lia.
  - intros H. destruct (cmp_float f 2.2) as [[]|] eqn:Hf;
      try discriminate H.
    rewrite (float_above_2_2_above_2_05 _ Hf). reflexivity.
Qed.

(** Line 96 of [electrolyzer_backend], wherever it gives an answer. *)
Lemma breach_above data hit :
  ElectrolyzerBackend.breach data = Returned hit →
  hit = Spec.above data "conductivity" (NFloat 0.5)
        || Spec.above data "voltage" (NFloat 2.05).
Proof.
  unfold ElectrolyzerBackend.breach, Spec.above, get, gt. unfold_M.
  destruct data as [| | | | | |d]; try done.
  cbv beta iota.
  destruct (as_num (default (VInt 0) (d !! "conductivity"))) as [c|];
    [|done].
  cbv beta iota.
  destruct (num_gtb c (NFloat 0.5)); [by intros [= <-]|].
  destruct (as_num (default (VInt 0) (d !! "voltage"))) as [u|]; [|done].
  by intros [= <-].
Qed.

(** A reading that the rule chain of [backend_api] flags for conductivity
    or for voltage trips the rule of [electrolyzer_backend] too. *)
Lemma first_match_above reading status :
  Spec.first_match Spec.rules reading = Returned status →
  status = "water_contamination_alert" ∨ status = "voltage_anomaly_alert" →
  Spec.above reading "conductivity" (NFloat 0.5)
  || Spec.above reading "voltage" (NFloat 2.05) = true.
Proof.
  unfold Spec.first_match, Spec.rules, Spec.above, gt, getitem.
  unfold_M. cbv beta iota delta [Spec.field Spec.bound Spec.alert].
  destruct reading as [| | | | | |d]; try done.
  destruct (d !! "conductivity") as [c|]; [|done].
  cbv beta iota delta [default id].
  destruct (as_num c) as [nc|]; [|done]. cbv beta iota.
  destruct (num_gtb nc (NFloat 0.5)); [done|]. cbv beta iota.
  destruct (d !! "voltage") as [u|]; [|done]. cbv beta iota.
  destruct (as_num u) as [nu|]; [|done]. cbv beta iota.
  destruct (num_gtb nu (NFloat 2.2)) eqn:Hu.
  - intros _ _. by rewrite (num_above_2_2_above_2_05 _ Hu).
  - cbv beta iota.
    destruct (d !! "temperature") as [t|]; [|done]. cbv beta iota.
    destruct (as_num t) as [nt|]; [|done]. cbv beta iota.
    destruct (num_gtb nt (NInt 90)); intros [= <-] [?|?]; done.
Qed.

(** *** The handlers do not look at the model *)

Lemma on_message_ignores_model msg m w :
  BackendApi.on_message msg (with_model m w)
  = ((BackendApi.on_message msg w).1,
     with_model m (BackendApi.on_message msg w).2).
Proof.
  unfold BackendApi.on_message, BackendApi.threshold_status, write_sync.
  unfold_M. destruct msg as [| |payload]; try done.
  cbn. repeat (case_step; cbn; try done).
Qed.

Lemma on_mqtt_message_ignores_model fromisoformat msg m w :
  ElectrolyzerBackend.on_mqtt_message fromisoformat msg (with_model m w)
  = ((ElectrolyzerBackend.on_mqtt_message fromisoformat msg w).1,
     with_model m (ElectrolyzerBackend.on_mqtt_message fromisoformat msg w).2).
Proof.
  unfold ElectrolyzerBackend.on_mqtt_message.
  unfold_M. destruct msg as [| |data]; try done.
  cbn. repeat (case_step; cbn; try done).
Qed.

(** C2, as the specification states it, fails in [electrolyzer_backend]:
    a reading that is only too hot has the threshold status
    "overheating_alert" and is assessed normal with health score 100. *)
Lemma threshold_alert_always_capped_fails :
  ¬ Spec.threshold_alert_always_capped.
Proof.
  intros [_ Hcapped].
  pose (overheated :=
          VDict (Spec.stamped "2024-01-01T00:00:00Z" (Spec.reading 0.3 1.9 95))).
  pose (w' := (ElectrolyzerBackend.on_mqtt_message Spec.fromisoformat_sample
                 (Json overheated) (Spec.serving 0)).2).
  destruct (Hcapped Spec.fromisoformat_sample overheated "overheating_alert"
              (Spec.serving 0) w' (Spec.prediction_point false 0) (VInt 100))
    as (n & Hn & Hle).
  - reflexivity.
  - discriminate.
  - reflexivity.
  - vm_compute. apply elem_of_cons. right. apply elem_of_cons. by left.
  - reflexivity.
  - injection Hn as <-. discriminate Hle.
Qed.

(** C2, amended.  A reading that the rule chain flags for conductivity or
    for voltage gets health score 45 from both handlers, the minimum
    of the handler's default (99 in [backend_api], 100 in
    [electrolyzer_backend]) and the cap.  [backend_api] caps the
    overheating status as well.  [electrolyzer_backend] has a rule of its
    own, conductivity above 0.5 or voltage above 2.05 with an absent field
    counting as 0, and no temperature bound: it writes 45 exactly for the
    readings that trip this rule and its default 100 for all others.  The
    default is a literal: neither handler looks at the model, so no
    statistical score enters the minimum. *)
Theorem alert_caps_default_score (w w' : proc) :
  (∀ status, status ≠ "normal" →
     (BackendApi.ai_placeholder status).2
       = Z.min (BackendApi.ai_placeholder "normal").2 Spec.ALERT_CAP) ∧
  (∀ payload status,
     BackendApi.on_message (Json payload) w = (Returned tt, w') →
     Spec.first_match Spec.rules payload = Returned status →
     status ≠ "normal" →
     ∃ sp ap h,
       sink w' = (sink w ++ [sp; ap])%list ∧
       measurement ap = "ai_predictions" ∧
       Spec.field_of "health_score" ap = Some (VInt h) ∧
       h = Z.min (BackendApi.ai_placeholder "normal").2 Spec.ALERT_CAP ∧
       h ≤ Spec.ALERT_CAP) ∧
  (∀ fromisoformat reading p v,
     ElectrolyzerBackend.on_mqtt_message fromisoformat (Json reading) w
       = (Returned tt, w') →
     p ∈ drop (length (sink w)) (sink w') →
     Spec.field_of "health_score" p = Some v →
     v = VInt (if Spec.above reading "conductivity" (NFloat 0.5)
                  || Spec.above reading "voltage" (NFloat 2.05)
               then Z.min 100 Spec.ALERT_CAP else 100)) ∧
  (∀ fromisoformat d t c,
     write_api w = true →
     ElectrolyzerBackend.point_time_of fromisoformat
       (default VNone (d !! "timestamp")) (clock w) = Returned t →
     as_num (default (VInt 0) (d !! "conductivity")) = Some c →
     (num_gtb c (NFloat 0.5) = false →
      is_Some (as_num (default (VInt 0) (d !! "voltage")))) →
     ∃ sp ap,
       sink (ElectrolyzerBackend.on_mqtt_message fromisoformat
               (Json (VDict d)) w).2 = (sink w ++ [sp; ap])%list ∧
       measurement ap = "ai_predictions" ∧
       Spec.field_of "health_score" ap
         = Some (VInt (if Spec.above (VDict d) "conductivity" (NFloat 0.5)
                          || Spec.above (VDict d) "voltage" (NFloat 2.05)
                       then Z.min 100 Spec.ALERT_CAP else 100))) ∧
  (∀ reading status,
     Spec.first_match Spec.rules reading = Returned status →
     status = "water_contamination_alert" ∨ status = "voltage_anomaly_alert" →
     Spec.above reading "conductivity" (NFloat 0.5)
     || Spec.above reading "voltage" (NFloat 2.05) = true) ∧
  (∀ msg m,
     BackendApi.on_message msg (with_model m w)
     = ((BackendApi.on_message msg w).1,
        with_model m (BackendApi.on_message msg w).2)) ∧
  (∀ fromisoformat msg m,
     ElectrolyzerBackend.on_mqtt_message fromisoformat msg (with_model m w)
     = ((ElectrolyzerBackend.on_mqtt_message fromisoformat msg w).1,
        with_model m
          (ElectrolyzerBackend.on_mqtt_message fromisoformat msg w).2)).
Proof.
  split; [|split; [|split; [|split; [|split; [|split]]]]].
  - intros status Halert.
    by destruct (ai_placeholder_cases status) as [[? _]|[_ ->]].
  - intros payload status Hrun Hstatus Halert.
    pose proof (on_message_cases (Json payload) w) as Hcases.
    rewrite Hrun in Hcases.
    destruct Hcases as (payload' & status' & sp & [= <-] & Hst & _ & _ & Hsink).
    rewrite Hstatus in Hst. injection Hst as <-.
    exists sp, (Spec.ai_point status (clock w)), 45.
    split; [done|]. split; [done|].
    unfold Spec.ai_point, Spec.field_of. cbn.
    destruct (ai_placeholder_cases status) as [[? _]|[_ ->]]; done.
  - intros fromisoformat reading p v Hrun Hin Hv.
    destruct (on_mqtt_message_cases fromisoformat (Json reading) w)
      as (w1 & Hrun1 & _ & Hcases).
    rewrite Hrun in Hrun1. injection Hrun1 as <-.
    destruct Hcases as [Hsink|[(sp & _ & Hnone & Hsink)
                              |(data' & sp & hit & [= <-] & Hhit & _ & Hnone & Hsink)]];
      rewrite Hsink in Hin.
    + rewrite drop_all in Hin. by apply elem_of_nil in Hin.
    + rewrite drop_app_length in Hin. apply list_elem_of_singleton in Hin as ->.
      congruence.
    + rewrite drop_app_length in Hin.
      apply breach_above in Hhit as <-.
      apply elem_of_cons in Hin as [->|Hin].
      * congruence.
      * apply list_elem_of_singleton in Hin as ->.
        unfold Spec.prediction_point, Spec.field_of in Hv. cbn in Hv.
        injection Hv as <-. by destruct hit.
  - intros fromisoformat d t c Hapi Htime Hc Hu.
    unfold ElectrolyzerBackend.on_mqtt_message, ElectrolyzerBackend.breach,
      Spec.above, get, gt.
    unfold_M. cbn. rewrite Hapi. cbn. rewrite Htime. cbn. rewrite Hc. cbn.
    destruct (num_gtb c (NFloat 0.5)) eqn:Hhit; cbn.
    + eexists _, _. rewrite <- app_assoc. by split.
    + destruct (Hu eq_refl) as [u ->]. cbn.
      destruct (num_gtb u (NFloat 2.05)); cbn;
        eexists _, _; rewrite <- app_assoc; by split.
  - apply first_match_above.
  - intros msg m. apply on_message_ignores_model.
  - intros fromisoformat msg m. apply on_mqtt_message_ignores_model.
Qed.

Lemma alert_caps_default_score_witness :
  let stamp := "2024-01-01T00:00:00Z" in
  let hot := VDict (Spec.stamped stamp (Spec.reading 0.6 1.9 75)) in
  let strained := Spec.stamped stamp (Spec.reading 0.3 2.1 75) in
  (∃ sp ap h,
     sink (BackendApi.on_message (Json hot) (boot 0)).2
       = (sink (boot 0) ++ [sp; ap])%list ∧
     measurement ap = "ai_predictions" ∧
     Spec.field_of "health_score" ap = Some (VInt h) ∧
     h = Z.min (BackendApi.ai_placeholder "normal").2 Spec.ALERT_CAP ∧
     h ≤ Spec.ALERT_CAP) ∧
  (∃ sp ap,
     sink (ElectrolyzerBackend.on_mqtt_message Spec.fromisoformat_sample
             (Json (VDict strained)) (Spec.serving 0)).2
       = (sink (Spec.serving 0) ++ [sp; ap])%list ∧
     measurement ap = "ai_predictions" ∧
     Spec.field_of "health_score" ap = Some (VInt 45)).
Proof.
  intros stamp hot strained. split.
  - apply (proj1 (proj2 (alert_caps_default_score (boot 0)
                           (BackendApi.on_message (Json hot) (boot 0)).2))
             hot "water_contamination_alert");
      [reflexivity | reflexivity | discriminate].
  - apply (proj1 (proj2 (proj2 (proj2
             (alert_caps_default_score (Spec.serving 0) (Spec.serving 0)))))
             Spec.fromisoformat_sample strained 1704067200 (NFloat 0.3));
      [reflexivity | reflexivity | reflexivity | by eexists].
Defined.

(** C10.  In [backend_api] the assessment computed from the threshold
    status is one of two pairs: "Normal" with score 99 when the status is
    "normal" (no rule fired), "Anomaly Detected" with score 45 otherwise.
    A decoded message that [on_message] processes to the end leaves
    exactly one assessment record, carrying that pair; a message on which
    [on_message] raises leaves none. *)
Theorem backend_api_two_assessments (payload : value) (w w' : proc) :
  (∀ status,
     (status = "normal" ∧
      BackendApi.ai_placeholder status = ("Normal", 99)) ∨
     (status ≠ "normal" ∧
      BackendApi.ai_placeholder status = ("Anomaly Detected", 45))) ∧
  (BackendApi.on_message (Json payload) w = (Returned tt, w') →
   ∃ status sp ap,
     Spec.first_match Spec.rules payload = Returned status ∧
     sink w' = (sink w ++ [sp; ap])%list ∧
     measurement sp = "electrolyzer_metrics" ∧
     measurement ap = "ai_predictions" ∧
     ((status = "normal" ∧
       fields ap = [("predicted_status", VStr "Normal");
                    ("health_score", VInt 99)]) ∨
      (status ≠ "normal" ∧
       fields ap = [("predicted_status", VStr "Anomaly Detected");
                    ("health_score", VInt 45)]))) ∧
  (∀ e, BackendApi.on_message (Json payload) w = (Raised e, w') →
        Forall (λ p, measurement p ≠ "ai_predictions")
               (drop (length (sink w)) (sink w'))).
Proof.
  pose proof (on_message_cases (Json payload) w) as Hcases.
  split; [apply ai_placeholder_cases|]. split.
  - intros Hrun. rewrite Hrun in Hcases.
    destruct Hcases as (payload' & status & sp & [= <-] & Hst & Hsp & _ & Hsink).
    exists status, sp, (Spec.ai_point status (clock w)).
    repeat (split; [done|]).
    unfold Spec.ai_point. cbn.
    destruct (ai_placeholder_cases status) as [[? ->]|[? ->]]; [left|right]; done.
  - intros e Hrun. rewrite Hrun in Hcases.
    destruct Hcases as [->|(sp & Hsp & _ & ->)].
    + by rewrite drop_all.
    + rewrite drop_app_length. apply Forall_singleton. by rewrite Hsp.
Qed.

Lemma backend_api_two_assessments_witness :
  let w := boot 0 in
  let calm := VDict (Spec.stamped "2024-01-01T00:00:00Z" (Spec.reading 0.3 1.9 75)) in
  ∃ status sp ap,
    Spec.first_match Spec.rules calm = Returned status ∧
    sink (BackendApi.on_message (Json calm) w).2 = (sink w ++ [sp; ap])%list ∧
    measurement sp = "electrolyzer_metrics" ∧
    measurement ap = "ai_predictions" ∧
    ((status = "normal" ∧
      fields ap = [("predicted_status", VStr "Normal");
                   ("health_score", VInt 99)]) ∨
     (status ≠ "normal" ∧
      fields ap = [("predicted_status", VStr "Anomaly Detected");
                   ("health_score", VInt 45)])).
Proof.
  intros w calm.
  apply (proj1 (proj2 (backend_api_two_assessments calm w
                         (BackendApi.on_message (Json calm) w).2))).
  reflexivity.
Defined.

(** *** Invalid JSON *)

Lemma main_drops_invalid_json w rest :
  Main.on_mqtt_message NotJson w
    = (Returned tt, record (Log ERROR "Failed to process MQTT message: ") w) ∧
  deliver Main.on_mqtt_message (NotJson :: rest) w
    = deliver Main.on_mqtt_message rest
        (record (Log ERROR "Failed to process MQTT message: ") w).
Proof. done. Qed.

Lemma electrolyzer_backend_drops_invalid_json fromisoformat w rest :
  let callback := ElectrolyzerBackend.on_mqtt_message fromisoformat in
  callback NotJson w
    = (Returned tt, record (Log ERROR "Invalid JSON in MQTT payload: ") w) ∧
  deliver callback (NotJson :: rest) w
    = deliver callback rest
        (record (Log ERROR "Invalid JSON in MQTT payload: ") w).
Proof. done. Qed.

(** C3.  In [backend_api] a payload that is not JSON is not dropped:
    [json.loads] sits outside any [try], so [on_message] raises
    [JSONDecodeError], nothing is logged, and the client loop ends without
    looking at the messages behind it.  ([main] and [electrolyzer_backend]
    catch the error, log it and go on: [main_drops_invalid_json],
    [electrolyzer_backend_drops_invalid_json].) *)
Theorem backend_api_invalid_json_ends_loop (w : proc) (rest : list wire) :
  BackendApi.on_message NotJson w = (Raised JSONDecodeError, w) ∧
  BackendApi.start_mqtt_listener (NotJson :: rest) w
    = (Raised JSONDecodeError, w).
Proof. done. Qed.

(** *** Missing fields *)

Lemma threshold_status_needs_conductivity (d : gmap string value) w :
  d !! "conductivity" = None →
  BackendApi.threshold_status (VDict d) w = (Raised (KeyError "conductivity"), w).
Proof.
  intros Hnone. unfold BackendApi.threshold_status. unfold_M. cbn.
  by rewrite Hnone.
Qed.

Lemma breach_total (d : gmap string value) :
  d !! "conductivity" = None → d !! "voltage" = None →
  ElectrolyzerBackend.breach (VDict d) = Returned false.
Proof.
  intros Hc Hv. unfold ElectrolyzerBackend.breach. cbn. by rewrite Hc, Hv.
Qed.

(** C5.  In [backend_api] the rules subscript the payload, so a reading
    without conductivity (the one [simulator.py] publishes) raises
    [KeyError] instead of counting as not triggered, and nothing is
    written for it; [electrolyzer_backend] reads the same field with
    [.get(..., 0)] and classifies the reading. *)
Theorem backend_api_missing_field_raises (w : proc) :
  let payload := VDict Spec.simulator_reading in
  BackendApi.threshold_status payload w
    = (Raised (KeyError "conductivity"), w) ∧
  BackendApi.on_message (Json payload) w
    = (Raised (KeyError "conductivity"), record (Print "Received: ") w) ∧
  ElectrolyzerBackend.breach payload = Returned false.
Proof. done. Qed.

(** *** Every handler keeps the stored health scores within bounds *)

Lemma backend_api_keeps_bounded msg w :
  Forall Spec.health_score_bounded (sink w) →
  Forall Spec.health_score_bounded (sink (BackendApi.on_message msg w).2).
Proof.
  intros Hold. pose proof (on_message_cases msg w) as Hcases.
  destruct (BackendApi.on_message msg w) as [[[]|e] w']; cbn.
  - destruct Hcases as (? & status & sp & _ & _ & _ & Hnone & ->).
    apply Forall_bounded_app; [done|].
    repeat constructor; auto with bounded.
  - destruct Hcases as [->|(sp & _ & Hnone & ->)]; [done|].
    apply Forall_bounded_app; [done|].
    repeat constructor; auto with bounded.
Qed.

Lemma electrolyzer_backend_keeps_bounded fromisoformat msg w :
  Forall Spec.health_score_bounded (sink w) →
  Forall Spec.health_score_bounded
    (sink (ElectrolyzerBackend.on_mqtt_message fromisoformat msg w).2).
Proof.
  intros Hold.
  destruct (on_mqtt_message_cases fromisoformat msg w)
    as (w' & -> & _ & Hcases); cbn.
  destruct Hcases as [->|[(sp & _ & Hnone & ->)
                         |(? & sp & hit & _ & _ & _ & Hnone & ->)]];
    [done| |]; (apply Forall_bounded_app; [done|]);
    repeat constructor; auto with bounded.
Qed.

Lemma main_handler_keeps_bounded msg w :
  Forall Spec.health_score_bounded (sink w) →
  Forall Spec.health_score_bounded (sink (Main.on_mqtt_message msg w).2).
Proof.
  intros Hold.
  destruct (main_on_mqtt_message_cases msg w) as (w' & -> & _ & _ & Hcases).
  cbn. destruct Hcases as [->|(sp & _ & Hnone & ->)]; [done|].
  apply Forall_bounded_app; [done|]. repeat constructor; auto with bounded.
Qed.

Lemma predict_anomaly_keeps_bounded w :
  Forall Spec.health_score_bounded (sink w) →
  Forall Spec.health_score_bounded (sink (Main.predict_anomaly w).2).
Proof.
  intros Hold. pose proof (predict_anomaly_cases w) as Hcases.
  destruct (Main.predict_anomaly w) as [[p|e] w']; cbn; [|by subst].
  destruct Hcases as (m & features & prob & label & _ & _ & _ & _ & _ & [->| ->]);
    [done|].
  apply Forall_bounded_app; [done|]. repeat constructor; auto with bounded.
Qed.

(** C4.  With a reading, a model and a decision value [d] for the
    reading, [predict_anomaly] answers, and whenever it answers its health
    score is [max(0, min(100, (1 - abs(d)) * 100))]: it lies in [0, 100],
    equals [clamp(0, 100, (1 - |d|) * 100)] whenever that product is a
    number, and is 100 when it is NaN.  Every health score that any
    handler of the three variants hands to the store lies in [0, 100] as
    well. *)
Theorem health_score_formula_and_range (w : proc) :
  (∀ m features label d,
     model w = Some m → truthy (latest_data w) = true →
     Main.features_of (latest_data w) = Returned features →
     predict m features = Returned label →
     decision_function m features = Returned d →
     ∃ p w', Main.predict_anomaly w = (Returned p, w') ∧
             Main.health_score p = Main.health_of d) ∧
  (∀ p w', Main.predict_anomaly w = (Returned p, w') →
     ∃ m features d,
       model w = Some m ∧
       decision_function m features = Returned d ∧
       let x := ((1 - abs d) * 100)%float in
       Main.health_score p = Main.health_of d ∧
       num_leb (NInt 0) (Main.health_score p) = true ∧
       num_leb (Main.health_score p) (NInt 100) = true ∧
       (is_nan x = false →
        num_eqb (Main.health_score p)
                (Spec.clamp (NInt 0) (NInt 100) (NFloat x)) = true) ∧
       (is_nan x = true → Main.health_score p = NInt 100)) ∧
  (Forall Spec.health_score_bounded (sink w) →
   (∀ msg,
      Forall Spec.health_score_bounded (sink (BackendApi.on_message msg w).2)) ∧
   (∀ msg,
      Forall Spec.health_score_bounded (sink (Main.on_mqtt_message msg w).2)) ∧
   Forall Spec.health_score_bounded (sink (Main.predict_anomaly w).2) ∧
   (∀ fromisoformat msg,
      Forall Spec.health_score_bounded
        (sink (ElectrolyzerBackend.on_mqtt_message fromisoformat msg w).2))).
Proof.
  split; [|split].
  - intros m features label d Hm Htruthy Hfeatures Hlabel Hd.
    unfold Main.predict_anomaly. unfold_M. cbn.
    rewrite Htruthy, Hm. cbn. rewrite Hfeatures, Hlabel, Hd.
    destruct (write_api w); by eexists _, _.
  - intros p w' Hrun. pose proof (predict_anomaly_cases w) as Hcases.
    rewrite Hrun in Hcases.
    destruct Hcases as (m & features & d & label & Hm & _ & _ & Hd & -> & _).
    exists m, features, d. repeat (split; [done|]). cbn.
    split; [apply health_of_range|]. split; [apply health_of_range|].
    split; [apply health_of_clamp|apply health_of_nan].
  - intros Hold. repeat split; intros.
    + by apply backend_api_keeps_bounded.
    + by apply main_handler_keeps_bounded.
    + by apply predict_anomaly_keeps_bounded.
    + by apply electrolyzer_backend_keeps_bounded.
Qed.

Lemma health_score_formula_and_range_witness :
  let w := Spec.scoring 0 in
  let p := Main.Prediction "normal" (NFloat 75) 0.25 in
  Main.predict_anomaly w
    = (Returned p, store (Spec.scorer_point 1 0.25 0) w) ∧
  (∃ m features d,
     model w = Some m ∧
     decision_function m features = Returned d ∧
     let x := ((1 - abs d) * 100)%float in
     Main.health_score p = Main.health_of d ∧
     num_leb (NInt 0) (Main.health_score p) = true ∧
     num_leb (Main.health_score p) (NInt 100) = true ∧
     (is_nan x = false →
      num_eqb (Main.health_score p)
              (Spec.clamp (NInt 0) (NInt 100) (NFloat x)) = true) ∧
     (is_nan x = true → Main.health_score p = NInt 100)) ∧
  Forall Spec.health_score_bounded (sink (Main.predict_anomaly w).2).
Proof.
  intros w p. split; [reflexivity|]. split.
  - apply (proj1 (proj2 (health_score_formula_and_range w)) p
             (store (Spec.scorer_point 1 0.25 0) w)).
    reflexivity.
  - apply (proj2 (proj2 (health_score_formula_and_range w))). constructor.
Defined.

(** *** Timestamps in electrolyzer_backend *)

(** C6, as the specification states it, fails: a timestamp that does not
    parse makes the handler log an error and write nothing. *)
Lemma timestamp_always_synthesized_fails : ¬ Spec.timestamp_always_synthesized.
Proof.
  intros Hclaim.
  destruct (Hclaim Spec.fromisoformat_sample
              (Spec.stamped "garbage" (Spec.reading 0.3 1.9 75))
              (Spec.serving 7) eq_refl)
    as (sp & rest & w' & Hrun & Hsink & _).
  { right. by exists "garbage". }
  apply (f_equal (λ r, sink r.2)) in Hrun. cbn in Hrun.
  rewrite Hsink in Hrun. vm_compute in Hrun. discriminate.
Qed.

(** C6, amended.  With the store set up, a message whose timestamp is
    absent (or null or empty) is kept: the reading is written and stamped
    with the current process time.  A message whose timestamp is a string
    that [datetime.fromisoformat] refuses is rejected: the handler logs
    "Invalid timestamp in data" and writes nothing. *)
Theorem timestamp_synthesized_when_absent
    (fromisoformat : string → option Z) (d : gmap string value) (w : proc) :
  write_api w = true →
  (truthy (default VNone (d !! "timestamp")) = false →
   ∃ sp rest w',
     ElectrolyzerBackend.on_mqtt_message fromisoformat (Json (VDict d)) w
       = (Returned tt, w') ∧
     sink w' = (sink w ++ sp :: rest)%list ∧
     measurement sp = "electrolyzer_metrics" ∧
     time sp = Instant (clock w)) ∧
  (∀ s, d !! "timestamp" = Some (VStr s) → s ≠ "" →
     fromisoformat (if ElectrolyzerBackend.contains_Z s
                    then ElectrolyzerBackend.replace_Z s else s) = None →
     ElectrolyzerBackend.on_mqtt_message fromisoformat (Json (VDict d)) w
       = (Returned tt,
          record (Log ERROR "Invalid timestamp in data: ")
            (record (Log INFO "Received sensor data: ") w))).
Proof.
  intros Hapi. split.
  - intros Hfalsy.
    unfold ElectrolyzerBackend.on_mqtt_message, ElectrolyzerBackend.breach.
    unfold_M. cbn.
    rewrite Hapi. cbn. unfold ElectrolyzerBackend.point_time_of.
    rewrite Hfalsy. cbn.
    repeat (case_step; cbn).
    all: eexists _, _, _; (split; [reflexivity|]); cbn;
      rewrite <- ?app_assoc; done.
  - intros s Hs Hne Hparse.
    unfold ElectrolyzerBackend.on_mqtt_message. unfold_M. cbn.
    rewrite Hapi, Hs. cbn. unfold ElectrolyzerBackend.point_time_of. cbn.
    destruct (String.eqb_spec s ""); [done|]. cbn. by rewrite Hparse.
Qed.

Lemma timestamp_synthesized_when_absent_witness :
  let w := Spec.serving 7 in
  let d := Spec.reading 0.3 1.9 75 in
  (∃ sp rest w',
     ElectrolyzerBackend.on_mqtt_message Spec.fromisoformat_sample
       (Json (VDict d)) w = (Returned tt, w') ∧
     sink w' = (sink w ++ sp :: rest)%list ∧
     measurement sp = "electrolyzer_metrics" ∧
     time sp = Instant (clock w)) ∧
  ElectrolyzerBackend.on_mqtt_message Spec.fromisoformat_sample
    (Json (VDict (Spec.stamped "garbage" d))) w
    = (Returned tt,
       record (Log ERROR "Invalid timestamp in data: ")
         (record (Log INFO "Received sensor data: ") w)).
Proof.
  intros w d. split.
  - apply (proj1 (timestamp_synthesized_when_absent
                    Spec.fromisoformat_sample d w eq_refl)).
    reflexivity.
  - apply (proj2 (timestamp_synthesized_when_absent
                    Spec.fromisoformat_sample (Spec.stamped "garbage" d) w
                    eq_refl) "garbage");
      [reflexivity | discriminate | reflexivity].
Defined.

(** *** The scorer without a model *)

(** C7, as the specification states it, fails: without a model
    [predict_anomaly] raises. *)
Lemma scorer_has_safe_default_fails : ¬ Spec.scorer_has_safe_default.
Proof.
  intros Hclaim.
  destruct (Hclaim (with_latest_data (VDict Spec.simulator_reading)
                      (Spec.serving 0)) eq_refl)
    as (p & w' & Hrun & _).
  vm_compute in Hrun. discriminate.
Qed.

(** C7, amended.  When fitting fails, [load_ai_model] logs the failure
    and leaves [model] at [None]; and as long as [model] is [None],
    [predict_anomaly] answers every request with HTTP 400, writes nothing
    and returns no score. *)
Theorem scorer_refuses_without_model (w : proc) :
  (∀ e, ∃ w', Main.load_ai_model (Raised e) w = (Returned tt, w') ∧
              model w' = None) ∧
  (model w = None →
   Main.predict_anomaly w = (Raised (HTTPException 400), w)).
Proof.
  split.
  - intros e. by eexists.
  - intros Hnone. unfold Main.predict_anomaly. unfold_M. cbn.
    rewrite Hnone. by destruct (truthy (latest_data w)).
Qed.

Lemma scorer_refuses_without_model_witness :
  let w := with_latest_data (VDict Spec.simulator_reading) (Spec.serving 0) in
  model w = None ∧
  Main.predict_anomaly w = (Raised (HTTPException 400), w).
Proof.
  intros w. split; [reflexivity|].
  apply (proj2 (scorer_refuses_without_model w)). reflexivity.
Defined.

(** *** The health endpoint *)

(** C8, as the specification states it, fails: with a store client the
    health check makes a round trip to the store. *)
Lemma health_is_pure_fails : ¬ Spec.health_is_pure.
Proof.
  intros Hclaim.
  destruct (Hclaim (Spec.serving 0)) as (status & Hrun & _).
  apply (f_equal (λ r, trace r.2)) in Hrun. vm_compute in Hrun.
  discriminate.
Qed.

(** C8, amended.  [health_check] reports the store as connected exactly
    when a client exists and a query sent now is answered, the broker as
    connected exactly when a client exists and says so, and the overall
    status as "ok" exactly when both are connected, "degraded" otherwise.
    It changes no global and writes no record, but it is not free of
    effects: with a store client it makes one blocking query, and it logs
    a warning when the query fails. *)
Theorem health_check_verdict (w : proc) :
  let sink_up := influx_client w && sink_answers w in
  let channel_up := mqtt_client w && mqtt_connected w in
  ∃ (status : gmap string string) (w' : proc),
    ElectrolyzerBackend.health_check w = (Returned status, w') ∧
    status !! "influxdb"
      = Some (if sink_up then "connected" else "not_connected") ∧
    status !! "mqtt"
      = Some (if channel_up then "connected" else "not_connected") ∧
    status !! "status"
      = Some (if sink_up && channel_up then "ok" else "degraded") ∧
    trace w' = (trace w ++
                if influx_client w
                then SinkQuery ::
                     (if sink_answers w then []
                      else [Log WARNING "InfluxDB health check failed: "])
                else [])%list ∧
    sink w' = sink w ∧
    latest_data w' = latest_data w ∧
    (mqtt_client w', influx_client w', write_api w')
      = (mqtt_client w, influx_client w, write_api w).
Proof.
  destruct w as [mc ic api data m now mq sa fs written events].
  unfold ElectrolyzerBackend.health_check. unfold_M. cbn.
  destruct ic, sa, mc, mq; cbn; eexists _, _; (split; [reflexivity|]); cbn;
    rewrite <- ?app_assoc, ?app_nil_r; repeat split; reflexivity.
Qed.

(** *** Start-up of electrolyzer_backend *)

Lemma connect_influx_returns ctor attempts w :
  ∃ ok w', ElectrolyzerBackend.connect_influx ctor attempts w
             = (Returned ok, w').
Proof.
  revert w. induction attempts as [|attempt rest IH]; intros w; cbn.
  - by eexists _, _.
  - unfold_M. cbn. repeat (case_step; cbn);
      first [apply IH | by eexists _, _].
Qed.

Lemma connect_mqtt_returns dial attempts w :
  ∃ ok w', ElectrolyzerBackend.connect_mqtt dial attempts w
             = (Returned ok, w').
Proof.
  revert w. induction attempts as [|attempt rest IH]; intros w; cbn.
  - by eexists _, _.
  - unfold_M. cbn. repeat (case_step; cbn);
      first [apply IH | by eexists _, _].
Qed.

Lemma setup_influxdb_returns environ influx w :
  ∃ ok w', ElectrolyzerBackend.setup_influxdb environ influx w
             = (Returned ok, w').
Proof.
  unfold ElectrolyzerBackend.setup_influxdb.
  destruct (_ || _); [by eexists _, _|apply connect_influx_returns].
Qed.

(** C9, as the specification states it, fails: with nothing configured
    start-up still reaches the point where the application serves. *)
Lemma missing_setting_is_fatal_fails : ¬ Spec.missing_setting_is_fatal.
Proof.
  intros Hclaim.
  destruct (Hclaim ∅ (λ _, None) (λ _ _ _ _, ElectrolyzerBackend.Built)
              (λ _ _ _ _ _, true) (boot 0))
    as (e & w' & Hrun).
  { exists "INFLUX_TOKEN". split; [|done]. apply elem_of_cons; by left. }
  vm_compute in Hrun. discriminate.
Qed.

(** C9, amended.  No missing setting stops start-up.  In
    [electrolyzer_backend], a missing, empty or placeholder [INFLUX_TOKEN]
    makes [setup_influxdb] log an error and return [False] without
    building a client; the missing broker settings fall back to
    "localhost", 1883, "admin" and "secret"; and [lifespan] reaches its
    [yield] whatever is missing (it raises only on an [MQTT_PORT] that
    [int()] refuses).  In [main], every missing setting takes its built-in
    default, "your-secret-key" for [SECRET_KEY] included. *)
Theorem startup_survives_missing_settings
    (environ : gmap string string) (int : string → option Z)
    (influx : string → string → string → nat → ElectrolyzerBackend.built)
    (broker : string → Z → string → string → nat → bool) (w : proc) :
  (default "influx-token-2024" (environ !! "INFLUX_TOKEN")
     ∈ ["influx-token-2024"; ""] →
   ElectrolyzerBackend.setup_influxdb environ influx w
     = (Returned false,
        record (Log ERROR
                  "INFLUX_TOKEN is not set properly in .env! Please update it.")
               w)) ∧
  (environ !! "MQTT_BROKER" = None → environ !! "MQTT_PORT" = None →
   environ !! "MQTT_USER" = None → environ !! "MQTT_PASS" = None →
   ElectrolyzerBackend.setup_mqtt environ int broker w
     = ElectrolyzerBackend.connect_mqtt
         (broker "localhost" 1883 "admin" "secret") (seq 0 5)
         (with_mqtt_client true w)) ∧
  (environ !! "MQTT_PORT" = None ∨
   (∃ text, environ !! "MQTT_PORT" = Some text ∧ is_Some (int text)) →
   ∃ w', ElectrolyzerBackend.lifespan environ int influx broker w
           = (Returned tt, w')) ∧
  Main.load_config int ∅
    = Returned (Main.Config "mosquitto" 1883 "admin" "secret"
                  "http://influxdb:8086" "influx-token-2024" "electrolyzer"
                  "electrolyzer_data" "your-secret-key").
Proof.
  repeat split.
  - intros Htoken. unfold ElectrolyzerBackend.setup_influxdb,
      ElectrolyzerBackend.getenv.
    destruct (default _ _) as [|c s] eqn:Hdef; [done|].
    apply elem_of_cons in Htoken as [->|Htoken]; [done|].
    apply list_elem_of_singleton in Htoken. done.
  - intros Hb Hp Hu Hpw. unfold ElectrolyzerBackend.setup_mqtt,
      ElectrolyzerBackend.getenv. unfold_M. by rewrite Hb, Hp, Hu, Hpw.
  - intros Hport. unfold ElectrolyzerBackend.lifespan.
    unfold mbind at 1. unfold M_bind.
    destruct (setup_influxdb_returns environ influx w) as (ok1 & w1 & ->).
    unfold mbind at 1. unfold M_bind.
    assert (∃ ok2 w2, ElectrolyzerBackend.setup_mqtt environ int broker w1
                        = (Returned ok2, w2)) as (ok2 & w2 & ->).
    { unfold ElectrolyzerBackend.setup_mqtt. unfold_M.
      destruct Hport as [->|(text & -> & port & ->)]; cbv beta iota;
        apply connect_mqtt_returns. }
    destruct (negb ok1 || negb ok2); by eexists.
Qed.

Lemma startup_survives_missing_settings_witness :
  let w := boot 0 in
  let influx := λ (_ _ _ : string) (_ : nat), ElectrolyzerBackend.Built in
  let broker := λ (_ : string) (_ : Z) (_ _ : string) (_ : nat), true in
  ElectrolyzerBackend.setup_influxdb ∅ influx w
    = (Returned false,
       record (Log ERROR
                 "INFLUX_TOKEN is not set properly in .env! Please update it.")
              w) ∧
  ∃ w', ElectrolyzerBackend.lifespan ∅ (λ _, None) influx broker w
          = (Returned tt, w').
Proof.
  intros w influx broker.
  pose proof (startup_survives_missing_settings ∅ (λ _, None) influx broker w)
    as (Htoken & _ & Hyield & _).
  split.
  - apply Htoken. constructor.
  - apply Hyield. by left.
Defined.

(** ** Further properties of the three services *)

(** *** main: the cache and the ingestion loop *)

Lemma main_handler_effects msg w :
  ∃ w',
    Main.on_mqtt_message msg w = (Returned tt, w') ∧
    latest_data w' = match msg with Json v => v | _ => latest_data w end ∧
    (model w', write_api w', influx_client w', mqtt_client w')
      = (model w, write_api w, influx_client w, mqtt_client w) ∧
    (sink w' = sink w ∨ ∃ sp, sink w' = (sink w ++ [sp])%list).
Proof.
  unfold Main.on_mqtt_message. unfold_M.
  destruct msg as [| |data]; cbn;
    try (eexists; repeat split; by left).
  repeat (case_step; cbn).
  all: eexists; split; [reflexivity|]; cbn; repeat split; try congruence.
  all: first
    [ by left
    | right;
      match goal with
      | |- context [(sink _ ++ [?sp])%list] => by exists sp
      end ].
Qed.

(** X1.  The MQTT loop of [main] survives every message sequence: the
    handler never raises, [latest_data] ends up as the payload of the last
    message that decoded (whether or not it could be stored), the store
    only grows, by at most one record per message, and the clients and the
    model are left alone. *)
Theorem main_cache_holds_last_decoded (msgs : list wire) (w : proc) :
  ∃ w',
    deliver Main.on_mqtt_message msgs w = (Returned tt, w') ∧
    latest_data w' = default (latest_data w) (last (Props.decoded msgs)) ∧
    sink w `prefix_of` sink w' ∧
    (length (sink w') ≤ length (sink w) + length msgs)%nat ∧
    (model w', write_api w', influx_client w', mqtt_client w')
      = (model w, write_api w, influx_client w, mqtt_client w).
Proof.
  revert w. induction msgs as [|msg rest IH]; intros w.
  - exists w. split; [done|]. split; [done|]. split; [done|].
    split; [cbn; lia|done].
  - destruct (main_handler_effects msg w) as (w1 & Hrun & Hdata & Hframe & Hsink).
    destruct (IH w1) as (w2 & Hrest & Hdata2 & Hprefix & Hlen & Hframe2).
    exists w2. cbn [deliver]. unfold mbind, M_bind. rewrite Hrun.
    split; [done|]. split; [|split; [|split]].
    + rewrite Hdata2, Hdata. unfold Props.decoded. cbn [omap].
      destruct msg as [| |v]; cbn; try done.
      rewrite last_cons. by destruct (last _).
    + etrans; [|exact Hprefix].
      destruct Hsink as [->|[sp ->]]; [done|by apply prefix_app_r].
    + cbn [length].
      destruct Hsink as [Hs|[sp Hs]]; rewrite Hs in Hlen;
        rewrite ?length_app in Hlen; cbn in Hlen; lia.
    + congruence.
Qed.

(** *** electrolyzer_backend: the ingestion loop *)

Lemma electrolyzer_handler_effects fromisoformat msg w :
  ∃ w',
    ElectrolyzerBackend.on_mqtt_message fromisoformat msg w = (Returned tt, w') ∧
    (latest_data w', model w', write_api w', influx_client w', mqtt_client w')
      = (latest_data w, model w, write_api w, influx_client w, mqtt_client w) ∧
    (∃ new, sink w' = (sink w ++ new)%list ∧ (length new ≤ 2)%nat ∧
            (write_api w = false → new = [])).
Proof.
  unfold ElectrolyzerBackend.on_mqtt_message, ElectrolyzerBackend.breach.
  unfold_M.
  destruct msg as [| |data]; cbn; [| |destruct (write_api w) eqn:Hapi; cbn].
  all: repeat (case_step; cbn).
  all: eexists; split; [reflexivity|]; cbn; split; [congruence|].
  all: rewrite <- ?app_assoc; cbn.
  all: first
    [ exists []; rewrite app_nil_r; split; [done|]; split; [cbn; lia|done]
    | eexists; split; [reflexivity|]; split; [cbn; lia|];
      intros; congruence ].
Qed.

(** X2.  The MQTT loop of [electrolyzer_backend] survives every message
    sequence: the handler never raises, the store only grows, by at most
    two records per message, no global changes, and without a write API
    nothing at all is stored. *)
Theorem electrolyzer_loop_never_stops
    (fromisoformat : string → option Z) (msgs : list wire) (w : proc) :
  ∃ w',
    deliver (ElectrolyzerBackend.on_mqtt_message fromisoformat) msgs w
      = (Returned tt, w') ∧
    sink w `prefix_of` sink w' ∧
    (length (sink w') ≤ length (sink w) + 2 * length msgs)%nat ∧
    (latest_data w', model w', write_api w', influx_client w', mqtt_client w')
      = (latest_data w, model w, write_api w, influx_client w, mqtt_client w) ∧
    (write_api w = false → sink w' = sink w).
Proof.
  revert w. induction msgs as [|msg rest IH]; intros w.
  - exists w. split; [done|]. split; [done|]. split; [cbn; lia|done].
  - destruct (electrolyzer_handler_effects fromisoformat msg w)
      as (w1 & Hrun & Hframe & new & Hsink & Hnew & Hnone).
    destruct (IH w1) as (w2 & Hrest & Hprefix & Hlen & Hframe2 & Hnone2).
    exists w2. cbn [deliver]. unfold mbind, M_bind. rewrite Hrun.
    split; [done|]. split; [|split; [|split]].
    + etrans; [|exact Hprefix]. rewrite Hsink. by apply prefix_app_r.
    + rewrite Hsink, length_app in Hlen. cbn [length]. lia.
    + congruence.
    + intros Hapi. rewrite Hnone2 by congruence.
      rewrite Hsink, (Hnone Hapi). by rewrite app_nil_r.
Qed.

(** *** electrolyzer_backend: timestamps and partial writes *)

Lemma replace_Z_clean s :
  ElectrolyzerBackend.contains_Z (ElectrolyzerBackend.replace_Z s) = false.
Proof.
  induction s as [|c s IH]; [done|]. cbn.
  destruct (Ascii.eqb c "Z") eqn:Hc; cbn; [done|]. by rewrite Hc.
Qed.

Lemma replace_Z_without_Z s :
  ElectrolyzerBackend.contains_Z s = false →
  ElectrolyzerBackend.replace_Z s = s.
Proof.
  induction s as [|c s IH]; [done|]. cbn.
  destruct (Ascii.eqb c "Z"); cbn; [done|]. intros Hs. by rewrite IH.
Qed.

(** X3.  What [electrolyzer_backend] hands to [datetime.fromisoformat] is
    the timestamp with every "Z" (not only a trailing one) replaced by
    "+00:00": the result holds no "Z", a timestamp without "Z" is passed
    unchanged (so the ['Z' in ts_str] test changes nothing), and
    normalising twice is normalising once.  An empty timestamp is never
    parsed: it counts as absent. *)
Theorem utc_marker_normalised
    (fromisoformat : string → option Z) (s : string) (now : Z) :
  ElectrolyzerBackend.contains_Z (ElectrolyzerBackend.replace_Z s) = false ∧
  (ElectrolyzerBackend.contains_Z s = false →
   ElectrolyzerBackend.replace_Z s = s) ∧
  ElectrolyzerBackend.replace_Z (ElectrolyzerBackend.replace_Z s)
    = ElectrolyzerBackend.replace_Z s ∧
  ElectrolyzerBackend.point_time_of fromisoformat (VStr s) now
    = if String.eqb s "" then Returned now
      else match fromisoformat (ElectrolyzerBackend.replace_Z s) with
           | Some t => Returned t
           | None => Raised ValueError
           end.
Proof.
  split; [apply replace_Z_clean|]. split; [apply replace_Z_without_Z|].
  split; [apply replace_Z_without_Z, replace_Z_clean|].
  unfold ElectrolyzerBackend.point_time_of. cbn.
  destruct (String.eqb s ""); cbn; [done|].
  destruct (ElectrolyzerBackend.contains_Z s) eqn:HZ; [done|].
  by rewrite replace_Z_without_Z.
Qed.

Lemma utc_marker_normalised_witness :
  ElectrolyzerBackend.replace_Z "2024-01-01T00:00:00+00:00"
    = "2024-01-01T00:00:00+00:00" ∧
  ElectrolyzerBackend.point_time_of Spec.fromisoformat_sample
    (VStr "2024-01-01T00:00:00Z") 7 = Returned 1704067200.
Proof.
  pose proof (utc_marker_normalised Spec.fromisoformat_sample
                "2024-01-01T00:00:00+00:00" 7) as (_ & Hsame & _).
  split; [apply Hsame; reflexivity|].
  pose proof (utc_marker_normalised Spec.fromisoformat_sample
                "2024-01-01T00:00:00Z" 7) as (_ & _ & _ & ->).
  reflexivity.
Defined.

(** X4.  A numeric timestamp is not accepted by [electrolyzer_backend]:
    unless it is zero (and then counts as absent), the ['Z' in ts_str]
    test raises a [TypeError], the message is dropped with the generic
    error line, and nothing is stored. *)
Theorem numeric_timestamp_rejected
    (fromisoformat : string → option Z) (d : gmap string value)
    (ts : value) (w : proc) :
  write_api w = true →
  d !! "timestamp" = Some ts →
  is_Some (as_num ts) → truthy ts = true →
  ElectrolyzerBackend.on_mqtt_message fromisoformat (Json (VDict d)) w
    = (Returned tt,
       record (Log ERROR "Failed to process MQTT message: ")
         (record (Log INFO "Received sensor data: ") w)).
Proof.
  intros Hapi Hts [n Hn] Htruthy.
  unfold ElectrolyzerBackend.on_mqtt_message. unfold_M. cbn.
  rewrite Hapi, Hts. cbn. unfold ElectrolyzerBackend.point_time_of.
  rewrite Htruthy. by destruct ts.
Qed.

Lemma numeric_timestamp_rejected_witness :
  let w := Spec.serving 7 in
  let d := <["timestamp" := VFloat 1700000000.5]> (Spec.reading 0.3 1.9 75) in
  ElectrolyzerBackend.on_mqtt_message Spec.fromisoformat_sample
    (Json (VDict d)) w
    = (Returned tt,
       record (Log ERROR "Failed to process MQTT message: ")
         (record (Log INFO "Received sensor data: ") w)).
Proof.
  intros w d.
  apply (numeric_timestamp_rejected Spec.fromisoformat_sample d
           (VFloat 1700000000.5) w); [reflexivity|reflexivity|by eexists|reflexivity].
Defined.

(** X5.  [electrolyzer_backend] stores a reading before it assesses it and
    does not take it back: when the timestamp is acceptable but the
    conductivity is not a number, the reading is stored as it came, the
    comparison raises, no assessment is stored, and the generic error
    line is logged. *)
Theorem reading_kept_when_assessment_fails
    (fromisoformat : string → option Z) (d : gmap string value)
    (c : value) (t : Z) (w : proc) :
  write_api w = true →
  ElectrolyzerBackend.point_time_of fromisoformat
    (default VNone (d !! "timestamp")) (clock w) = Returned t →
  d !! "conductivity" = Some c → as_num c = None →
  ∃ w',
    ElectrolyzerBackend.on_mqtt_message fromisoformat (Json (VDict d)) w
      = (Returned tt, w') ∧
    sink w' = (sink w ++
               [Point "electrolyzer_metrics" [("host", "electrolyzer_1")]
                  [("temperature", default (VInt 0) (d !! "temperature"));
                   ("voltage", default (VInt 0) (d !! "voltage"));
                   ("current", default (VInt 0) (d !! "current"));
                   ("conductivity", c)]
                  (Instant t)])%list ∧
    trace w' = (trace w ++
                [Log INFO "Received sensor data: ";
                 Log INFO "Sensor data written to InfluxDB.";
                 Log ERROR "Failed to process MQTT message: "])%list.
Proof.
  intros Hapi Htime Hc Hnum.
  unfold ElectrolyzerBackend.on_mqtt_message, ElectrolyzerBackend.breach, gt.
  unfold_M. cbn. rewrite Hapi. cbn. rewrite Htime. cbn.
  rewrite Hc. cbn. rewrite Hnum. cbn.
  eexists. split; [reflexivity|]. cbn. by rewrite <- !app_assoc.
Qed.

Lemma reading_kept_when_assessment_fails_witness :
  let w := Spec.serving 7 in
  let d := <["conductivity" := VStr "0.3"]> (Spec.reading 0.3 1.9 75) in
  ∃ w',
    ElectrolyzerBackend.on_mqtt_message Spec.fromisoformat_sample
      (Json (VDict d)) w = (Returned tt, w') ∧
    sink w' = (sink w ++
               [Point "electrolyzer_metrics" [("host", "electrolyzer_1")]
                  [("temperature", default (VInt 0) (d !! "temperature"));
                   ("voltage", default (VInt 0) (d !! "voltage"));
                   ("current", default (VInt 0) (d !! "current"));
                   ("conductivity", VStr "0.3")]
                  (Instant 7)])%list ∧
    trace w' = (trace w ++
                [Log INFO "Received sensor data: ";
                 Log INFO "Sensor data written to InfluxDB.";
                 Log ERROR "Failed to process MQTT message: "])%list.
Proof.
  intros w d.
  apply (reading_kept_when_assessment_fails Spec.fromisoformat_sample d
           (VStr "0.3") 7 w); reflexivity.
Defined.

(** *** main: the health score and the sign of the decision value *)




(** *** electrolyzer_backend: the retry loops *)

Lemma waited_app l1 l2 :
  Props.waited (l1 ++ l2) = Props.waited l1 + Props.waited l2.
Proof.
  unfold Props.waited.
  induction l1 as [|ev l1 IH]; cbn; [done|].
  destruct ev; rewrite ?IH; lia.
Qed.

(** X7.  [electrolyzer_backend.setup_mqtt] with a usable port makes at
    most five connection attempts and stops at the first that succeeds:
    it returns whether one did, sleeps 5 s after each failed attempt
    except the fifth (20 s at most), leaves the client global set either
    way, and touches neither the store nor the other globals. *)
Theorem setup_mqtt_retries
    (environ : gmap string string) (int : string → option Z)
    (broker : string → Z → string → string → nat → bool)
    (port : Z) (w : proc) :
  match environ !! "MQTT_PORT" with
  | Some text => int text = Some port
  | None => port = 1883
  end →
  let dial := broker (ElectrolyzerBackend.getenv environ "MQTT_BROKER" "localhost")
                     port
                     (ElectrolyzerBackend.getenv environ "MQTT_USER" "admin")
                     (ElectrolyzerBackend.getenv environ "MQTT_PASS" "secret") in
  ∃ w',
    ElectrolyzerBackend.setup_mqtt environ int broker w
      = (Returned (existsb dial (seq 0 5)), w') ∧
    Props.waited (trace w')
      = Props.waited (trace w)
        + 5 * Z.of_nat (Nat.min (Props.failures dial (seq 0 5)) 4) ∧
    mqtt_client w' = true ∧
    (influx_client w', write_api w', latest_data w', model w', sink w')
      = (influx_client w, write_api w, latest_data w, model w, sink w).
Proof.
  intros Hport dial. subst dial.
  unfold ElectrolyzerBackend.setup_mqtt. unfold_M.
  destruct (environ !! "MQTT_PORT") as [text|]; [rewrite Hport|subst port];
    match goal with
    | |- context [broker ?host ?p ?user ?pass] =>
        generalize (broker host p user pass)
    end;
    intros dial; cbn;
    (destruct (dial 0%nat) eqn:H0; cbn;
     [|destruct (dial 1%nat) eqn:H1; cbn;
       [|destruct (dial 2%nat) eqn:H2; cbn;
         [|destruct (dial 3%nat) eqn:H3; cbn;
           [|destruct (dial 4%nat) eqn:H4; cbn]]]]);
    (eexists; split; [reflexivity|]; cbn);
    rewrite ?waited_app; cbn; (split; [lia|done]).
Qed.

Lemma setup_mqtt_retries_witness :
  let broker := λ (_ : string) (_ : Z) (_ _ : string) (k : nat), (2 <=? k)%nat in
  ∃ w',
    ElectrolyzerBackend.setup_mqtt ∅ (λ _, None) broker (boot 0)
      = (Returned true, w') ∧
    Props.waited (trace w') = 10 ∧
    mqtt_client w' = true.
Proof.
  intros broker.
  pose proof (setup_mqtt_retries (∅ : gmap string string) (λ _, None) broker
                1883 (boot 0)) as Hretries.
  cbv zeta in Hretries.
  destruct Hretries as (w' & Hrun & Hwait & Hclient & _); [reflexivity|].
  exists w'. split; [exact Hrun|]. split; [exact Hwait|exact Hclient].
Defined.

(** X8.  [electrolyzer_backend.setup_influxdb] with a real token makes at
    most five attempts to build the store client and stops at the first
    that succeeds: it returns whether one did, sleeps 5 s after each
    failed attempt except the fifth (20 s at most), ends with both store
    globals set on success, and leaves the write API as it was on
    failure. *)
Theorem setup_influxdb_retries
    (environ : gmap string string)
    (influx : string → string → string → nat → ElectrolyzerBackend.built)
    (token : string) (w : proc) :
  environ !! "INFLUX_TOKEN" = Some token →
  token ≠ "" → token ≠ "influx-token-2024" →
  let ok := λ k,
    Props.built_ok
      (influx (ElectrolyzerBackend.getenv environ "INFLUX_URL"
                 "http://localhost:8086")
              token
              (ElectrolyzerBackend.getenv environ "INFLUX_ORG" "electrolyzer")
              k) in
  ∃ w',
    ElectrolyzerBackend.setup_influxdb environ influx w
      = (Returned (existsb ok (seq 0 5)), w') ∧
    Props.waited (trace w')
      = Props.waited (trace w)
        + 5 * Z.of_nat (Nat.min (Props.failures ok (seq 0 5)) 4) ∧
    (if existsb ok (seq 0 5)
     then influx_client w' = true ∧ write_api w' = true
     else write_api w' = write_api w) ∧
    (mqtt_client w', latest_data w', model w', sink w')
      = (mqtt_client w, latest_data w, model w, sink w).
Proof.
  intros Htoken Hne1 Hne2 ok. subst ok.
  unfold ElectrolyzerBackend.setup_influxdb, ElectrolyzerBackend.getenv,
    Props.built_ok.
  cbv zeta. rewrite Htoken.
  change (default "influx-token-2024" (Some token)) with token.
  destruct (String.eqb_spec token ""); [done|].
  destruct (String.eqb_spec token "influx-token-2024"); [done|].
  cbn [orb].
  match goal with
  | |- context [influx ?url token ?org] => generalize (influx url token org)
  end.
  intros ctor. unfold_M. cbn.
  destruct (ctor 0%nat) eqn:H0; cbn;
    try (destruct (ctor 1%nat) eqn:H1; cbn;
    try (destruct (ctor 2%nat) eqn:H2; cbn;
    try (destruct (ctor 3%nat) eqn:H3; cbn;
    try (destruct (ctor 4%nat) eqn:H4; cbn)))).
  all: eexists; split; [reflexivity|]; cbn.
  all: rewrite ?waited_app; cbn; split; [lia|done].
Qed.

Lemma setup_influxdb_retries_witness :
  let environ : gmap string string := {[ "INFLUX_TOKEN" := "t0ken" ]} in
  let influx := λ (_ _ _ : string) (k : nat),
    if (k <? 4)%nat then ElectrolyzerBackend.CtorRaises
    else ElectrolyzerBackend.Built in
  ∃ w',
    ElectrolyzerBackend.setup_influxdb environ influx (boot 0)
      = (Returned true, w') ∧
    Props.waited (trace w') = 20 ∧
    influx_client w' = true ∧ write_api w' = true.
Proof.
  intros environ influx.
  pose proof (setup_influxdb_retries environ influx "t0ken" (boot 0))
    as Hretries.
  cbv zeta in Hretries.
  destruct Hretries as (w' & Hrun & Hwait & Hglobals & _);
    [reflexivity|done|done|].
  exists w'. split; [exact Hrun|]. split; [exact Hwait|exact Hglobals].
Defined.

(** *** electrolyzer_backend: a degraded start *)

Lemma connect_mqtt_silent dial attempts w :
  ∃ ok w',
    ElectrolyzerBackend.connect_mqtt dial attempts w = (Returned ok, w') ∧
    Props.silent_part w' = Props.silent_part w.
Proof.
  revert w. induction attempts as [|attempt rest IH]; intros w;
    cbn [ElectrolyzerBackend.connect_mqtt]; unfold_M.
  - by eexists _, _.
  - destruct (dial attempt); [by eexists _, _|].
    destruct (attempt <? 4)%nat;
      match goal with
      | |- context [ElectrolyzerBackend.connect_mqtt _ _ ?s] =>
          destruct (IH s) as (ok & w' & -> & Hsilent)
      end;
      (eexists _, _; split; [reflexivity|]; by rewrite Hsilent).
Qed.

Lemma electrolyzer_silent_without_api fromisoformat msgs w :
  write_api w = false →
  ∃ w',
    deliver (ElectrolyzerBackend.on_mqtt_message fromisoformat) msgs w
      = (Returned tt, w') ∧
    sink w' = sink w.
Proof.
  revert w. induction msgs as [|msg rest IH]; intros w Hapi.
  - by exists w.
  - destruct (electrolyzer_handler_effects fromisoformat msg w)
      as (w1 & Hrun & Hframe & new & Hsink & _ & Hnone).
    destruct (IH w1) as (w2 & Hrest & Hsink2); [congruence|].
    exists w2. cbn [deliver]. unfold mbind, M_bind. rewrite Hrun.
    split; [done|]. rewrite Hsink2, Hsink, (Hnone Hapi). by rewrite app_nil_r.
Qed.

Lemma health_check_without_store_client w :
  influx_client w = false →
  ∃ status w',
    ElectrolyzerBackend.health_check w = (Returned status, w') ∧
    status !! "status" = Some "degraded" ∧
    status !! "influxdb" = Some "not_connected" ∧
    trace w' = trace w.
Proof.
  destruct w as [mc ic api data m now mq sa fs written events]. cbn.
  intros ->. unfold ElectrolyzerBackend.health_check. unfold_M. cbn.
  destruct mc, mq; cbn; by eexists _, _.
Qed.

Lemma setup_influxdb_refuses environ influx w :
  default "influx-token-2024" (environ !! "INFLUX_TOKEN")
    ∈ ["influx-token-2024"; ""] →
  ElectrolyzerBackend.setup_influxdb environ influx w
    = (Returned false,
       record (Log ERROR
                 "INFLUX_TOKEN is not set properly in .env! Please update it.")
              w).
Proof.
  intros Htoken.
  unfold ElectrolyzerBackend.setup_influxdb, ElectrolyzerBackend.getenv.
  cbv zeta.
  apply elem_of_cons in Htoken as [->|Htoken]; [done|].
  apply list_elem_of_singleton in Htoken as ->. done.
Qed.

Lemma setup_mqtt_keeps_store environ int broker w :
  ∃ r w',
    ElectrolyzerBackend.setup_mqtt environ int broker w = (r, w') ∧
    influx_client w' = influx_client w ∧
    write_api w' = write_api w ∧
    sink w' = sink w.
Proof.
  unfold ElectrolyzerBackend.setup_mqtt. unfold_M.
  destruct (environ !! "MQTT_PORT") as [text|];
    [destruct (int text) as [port|]|]; cbv beta iota;
    try (by eexists _, _);
    match goal with
    | |- context [ElectrolyzerBackend.connect_mqtt ?dial ?l ?s] =>
        destruct (connect_mqtt_silent dial l s) as (ok & w' & -> & Hsilent)
    end;
    unfold Props.silent_part in Hsilent; cbn in Hsilent;
    injection Hsilent as _ Hclient Hapi _ _ Hsink;
    by eexists _, _.
Qed.

(** X9.  When [electrolyzer_backend] starts on a fresh process without a
    usable [INFLUX_TOKEN] and start-up reaches its [yield], the service
    runs without a store for good: whatever messages arrive afterwards,
    nothing is ever stored, and the health check answers "degraded" with
    the store not connected, without sending a query. *)
Theorem degraded_start_stores_nothing
    (environ : gmap string string) (int : string → option Z)
    (influx : string → string → string → nat → ElectrolyzerBackend.built)
    (broker : string → Z → string → string → nat → bool)
    (fromisoformat : string → option Z) (msgs : list wire) (w w1 : proc) :
  default "influx-token-2024" (environ !! "INFLUX_TOKEN")
    ∈ ["influx-token-2024"; ""] →
  influx_client w = false → write_api w = false →
  ElectrolyzerBackend.lifespan environ int influx broker w = (Returned tt, w1) →
  (∃ w2,
     deliver (ElectrolyzerBackend.on_mqtt_message fromisoformat) msgs w1
       = (Returned tt, w2) ∧
     sink w2 = sink w) ∧
  (∃ status w3,
     ElectrolyzerBackend.health_check w1 = (Returned status, w3) ∧
     status !! "status" = Some "degraded" ∧
     status !! "influxdb" = Some "not_connected" ∧
     trace w3 = trace w1).
Proof.
  intros Htoken Hclient Hapi Hrun.
  assert (influx_client w1 = false ∧ write_api w1 = false ∧ sink w1 = sink w)
    as (Hclient1 & Hapi1 & Hsink1).
  { revert Hrun. unfold ElectrolyzerBackend.lifespan. unfold_M.
    rewrite (setup_influxdb_refuses _ _ _ Htoken).
    destruct (setup_mqtt_keeps_store environ int broker
                (record (Log ERROR
                   "INFLUX_TOKEN is not set properly in .env! Please update it.")
                   w))
      as (r & w' & -> & Hc & Ha & Hs).
    destruct r as [ok|e]; [|done].
    cbn. intros [= <-]. cbn. by rewrite Hc, Ha, Hs. }
  split.
  - destruct (electrolyzer_silent_without_api fromisoformat msgs w1 Hapi1)
      as (w2 & Hloop & Hsink2).
    exists w2. split; [done|congruence].
  - by apply health_check_without_store_client.
Qed.

Lemma degraded_start_stores_nothing_witness :
  let influx := λ (_ _ _ : string) (_ : nat), ElectrolyzerBackend.Built in
  let broker := λ (_ : string) (_ : Z) (_ _ : string) (_ : nat), true in
  let w1 := (ElectrolyzerBackend.lifespan ∅ (λ _, None) influx broker (boot 0)).2 in
  let msgs := [Json (VDict (Spec.reading 0.6 1.9 75)); NotJson] in
  (∃ w2,
     deliver (ElectrolyzerBackend.on_mqtt_message Spec.fromisoformat_sample)
       msgs w1 = (Returned tt, w2) ∧
     sink w2 = sink (boot 0)) ∧
  (∃ status w3,
     ElectrolyzerBackend.health_check w1 = (Returned status, w3) ∧
     status !! "status" = Some "degraded" ∧
     status !! "influxdb" = Some "not_connected" ∧
     trace w3 = trace w1).
Proof.
  intros influx broker w1 msgs.
  apply (degraded_start_stores_nothing ∅ (λ _, None) influx broker
           Spec.fromisoformat_sample msgs (boot 0) w1);
    [constructor|reflexivity|reflexivity|reflexivity].
Defined.

(** *** backend_api: the two writes *)

(** X10.  [backend_api.on_message] writes the reading and the assessment
    one after the other with nothing to undo the first: if the store
    takes the reading and refuses the assessment, the reading stays
    stored without an assessment; if it refuses the reading, nothing is
    stored.  Either way the [ApiException] leaves the handler. *)
Theorem backend_api_writes_not_atomic
    (d : gmap string value) (status : string) (w : proc) :
  Spec.first_match Spec.rules (VDict d) = Returned status →
  (∀ key, key ∈ ["temperature"; "voltage"; "current"; "conductivity";
                 "timestamp"] → is_Some (d !! key)) →
  (∀ later, faults w = true :: false :: later →
     ∃ sp w',
       BackendApi.on_message (Json (VDict d)) w = (Raised ApiException, w') ∧
       sink w' = (sink w ++ [sp])%list ∧
       measurement sp = "electrolyzer_metrics" ∧
       faults w' = later) ∧
  (∀ later, faults w = false :: later →
     ∃ w',
       BackendApi.on_message (Json (VDict d)) w = (Raised ApiException, w') ∧
       sink w' = sink w ∧
       faults w' = later).
Proof.
  intros Hstatus Hkeys.
  destruct (Hkeys "temperature") as [t Ht]; [set_solver|].
  destruct (Hkeys "voltage") as [v Hv]; [set_solver|].
  destruct (Hkeys "current") as [cur Hcur]; [set_solver|].
  destruct (Hkeys "conductivity") as [c Hc]; [set_solver|].
  destruct (Hkeys "timestamp") as [ts Hts]; [set_solver|].
  pose proof (threshold_status_first_match (VDict d)
                (record (Print "Received: ") w)) as Hs.
  pose proof (threshold_status_frame (VDict d)
                (record (Print "Received: ") w)) as Hf.
  rewrite Hstatus in Hs.
  unfold BackendApi.on_message, write_sync. unfold_M. cbn.
  destruct (BackendApi.threshold_status (VDict d) _) as [[st|e] w1];
    cbn [fst snd] in *; [|done].
  destruct Hf as (Hsink & _ & Hfaults). cbn in Hsink, Hfaults.
  destruct (BackendApi.ai_placeholder st) as [label score].
  rewrite Ht, Hv, Hcur, Hc, Hts. cbn.
  split; intros later Hlater; rewrite Hfaults, Hlater; cbn.
  - rewrite Hfaults, Hlater. cbn. eexists _, _. split; [reflexivity|].
    cbn. rewrite Hsink, Hfaults, Hlater. done.
  - eexists. split; [reflexivity|]. cbn. by rewrite Hsink, Hfaults, Hlater.
Qed.

Lemma backend_api_writes_not_atomic_witness :
  let d := Spec.stamped "2024-01-01T00:00:00Z" (Spec.reading 0.6 1.9 75) in
  let w := Proc false true true (VDict ∅) None 0 true true [true; false] [] [] in
  ∃ sp w',
    BackendApi.on_message (Json (VDict d)) w = (Raised ApiException, w') ∧
    sink w' = (sink w ++ [sp])%list ∧
    measurement sp = "electrolyzer_metrics" ∧
    faults w' = [].
Proof.
  intros d w.
  apply (proj1 (backend_api_writes_not_atomic d "water_contamination_alert" w
                  eq_refl
                  ltac:(intros key Hkey; repeat (apply elem_of_cons in Hkey as [->|Hkey]; [by eexists|]); by apply elem_of_nil in Hkey))).
  reflexivity.
Defined.

(** *** electrolyzer_backend: the data endpoint *)

(** X11.  [electrolyzer_backend.get_latest_data] never raises and never
    changes a global or the store.  Without a store client it answers
    "InfluxDB not connected" without sending a query; with one it sends
    exactly one query, answers the exception's text (and logs an error)
    when the store does not answer, "No data found in the last hour" only
    when the answer has no table at all, and otherwise the records of all
    tables in order, which is an empty list when every table is empty. *)
Theorem data_endpoint_answers
    (tables : list (list ElectrolyzerBackend.flux_record)) (reason : string)
    (w : proc) :
  ∃ reply w',
    ElectrolyzerBackend.get_latest_data tables reason w = (Returned reply, w') ∧
    Props.silent_part w' = Props.silent_part w ∧
    reply =
      (if negb (influx_client w)
       then ElectrolyzerBackend.ReplyError "InfluxDB not connected"
       else if negb (sink_answers w) then ElectrolyzerBackend.ReplyError reason
       else if bool_decide (tables = [])
            then ElectrolyzerBackend.ReplyMessage "No data found in the last hour"
            else ElectrolyzerBackend.ReplyLatest (concat tables)) ∧
    trace w' =
      (trace w ++
       if negb (influx_client w) then []
       else SinkQuery ::
            (if sink_answers w then []
             else [Log ERROR "Error querying data: "]))%list ∧
    (Forall (λ table, table = []) tables → tables ≠ [] →
     influx_client w = true → sink_answers w = true →
     reply = ElectrolyzerBackend.ReplyLatest []).
Proof.
  unfold ElectrolyzerBackend.get_latest_data. unfold_M. cbn.
  destruct (influx_client w) eqn:Hclient; cbn.
  - destruct (sink_answers w) eqn:Hanswers; cbn.
    + destruct tables as [|table tables]; cbn;
        eexists _, _; (split; [reflexivity|]); cbn;
        rewrite ?app_nil_r; repeat split; try done.
      intros Hempty _ _ _. f_equal.
      change (table ++ concat tables)%list with (concat (table :: tables)).
      induction Hempty as [|t ts -> _ IH]; [done|exact IH].
    + eexists _, _; (split; [reflexivity|]); cbn.
      rewrite <- app_assoc. repeat split; done.
  - eexists _, _; (split; [reflexivity|]); cbn.
    rewrite app_nil_r. repeat split; done.
Qed.

Lemma data_endpoint_answers_witness :
  ∃ w',
    ElectrolyzerBackend.get_latest_data [[]; []] "timeout" (Spec.serving 0)
      = (Returned (ElectrolyzerBackend.ReplyLatest []), w').
Proof.
  destruct (data_endpoint_answers [[]; []] "timeout" (Spec.serving 0))
    as (reply & w' & Hrun & _ & _ & _ & Hempty).
  exists w'. rewrite Hrun, Hempty; try done.
  by repeat constructor.
Defined.

(** *** main: start-up *)

Lemma main_connect_influx_effects ctor w :
  let ok := λ k, Props.built_ok (ctor k) in
  ∃ w',
    MainApp.connect_influx ctor (seq 0 3) w
      = (Returned (existsb ok (seq 0 3)), w') ∧
    Props.waited (trace w')
      = Props.waited (trace w) + 5 * Z.of_nat (Props.failures ok (seq 0 3)) ∧
    (if existsb ok (seq 0 3)
     then influx_client w' = true ∧ write_api w' = true
     else write_api w' = write_api w) ∧
    (mqtt_client w', latest_data w', model w', sink w')
      = (mqtt_client w, latest_data w, model w, sink w).
Proof.
  intros ok. unfold ok, Props.built_ok. unfold_M. cbn.
  destruct (ctor 0%nat) eqn:H0; cbn;
    try (destruct (ctor 1%nat) eqn:H1; cbn;
    try (destruct (ctor 2%nat) eqn:H2; cbn)).
  all: eexists; split; [reflexivity|]; cbn.
  all: rewrite ?waited_app; cbn; split; [lia|done].
Qed.

Lemma main_connect_mqtt_effects dial w :
  let ok := λ k, Props.dialled_ok (dial k) in
  ∃ w',
    MainApp.connect_mqtt dial (seq 0 3) w
      = (Returned (existsb ok (seq 0 3)), w') ∧
    Props.waited (trace w')
      = Props.waited (trace w) + 5 * Z.of_nat (Props.failures ok (seq 0 3)) ∧
    (if existsb ok (seq 0 3) then mqtt_client w' = true else True) ∧
    (influx_client w', write_api w', latest_data w', model w', sink w')
      = (influx_client w, write_api w, latest_data w, model w, sink w).
Proof.
  intros ok. unfold ok, Props.dialled_ok. unfold_M. cbn.
  destruct (dial 0%nat) eqn:H0; cbn;
    try (destruct (dial 1%nat) eqn:H1; cbn;
    try (destruct (dial 2%nat) eqn:H2; cbn)).
  all: eexists; split; [reflexivity|]; cbn.
  all: rewrite ?waited_app; cbn; split; [lia|done].
Qed.

(** X12.  [main.startup_event] never fails.  Each of its two set-ups
    makes at most three attempts and sleeps 5 s after every failed one,
    the last included (30 s at most in all); the store globals are set
    when an attempt to build the client succeeded; and whatever happened
    to the connections, the model is loaded exactly when fitting
    succeeded.  The store and [latest_data] are not touched. *)
Theorem main_startup_never_fails
    (cfg : Main.config)
    (influx : string → string → string → nat → ElectrolyzerBackend.built)
    (broker : string → Z → string → string → nat → MainApp.dialled)
    (fit : outcome estimator) (w : proc) :
  let built := λ k,
    Props.built_ok (influx (Main.INFLUX_URL cfg) (Main.INFLUX_TOKEN cfg)
                           (Main.INFLUX_ORG cfg) k) in
  let connected := λ k,
    Props.dialled_ok (broker (Main.MQTT_BROKER cfg) (Main.MQTT_PORT cfg)
                             (Main.MQTT_USER cfg) (Main.MQTT_PASS cfg) k) in
  ∃ w',
    MainApp.startup_event cfg influx broker fit w = (Returned tt, w') ∧
    Props.waited (trace w')
      = Props.waited (trace w)
        + 5 * Z.of_nat (Props.failures built (seq 0 3)
                        + Props.failures connected (seq 0 3)) ∧
    (Props.failures built (seq 0 3) ≤ 3)%nat ∧
    (Props.failures connected (seq 0 3) ≤ 3)%nat ∧
    model w' = match fit with Returned m => Some m | Raised _ => None end ∧
    (if existsb built (seq 0 3)
     then influx_client w' = true ∧ write_api w' = true
     else write_api w' = write_api w) ∧
    (latest_data w', sink w') = (latest_data w, sink w).
Proof.
  intros built connected.
  unfold MainApp.startup_event, MainApp.setup_influxdb, MainApp.setup_mqtt.
  destruct (main_connect_influx_effects
              (influx (Main.INFLUX_URL cfg) (Main.INFLUX_TOKEN cfg)
                      (Main.INFLUX_ORG cfg)) w)
    as (w1 & Hrun1 & Hwait1 & Hstore1 & Hframe1).
  destruct (main_connect_mqtt_effects
              (broker (Main.MQTT_BROKER cfg) (Main.MQTT_PORT cfg)
                      (Main.MQTT_USER cfg) (Main.MQTT_PASS cfg)) w1)
    as (w2 & Hrun2 & Hwait2 & _ & Hframe2).
  fold built in Hrun1, Hwait1, Hstore1. fold connected in Hrun2, Hwait2.
  unfold mbind at 1. unfold M_bind at 1. rewrite Hrun1.
  unfold mbind at 1. unfold M_bind at 1. rewrite Hrun2.
  injection Hframe1 as _ Hdata1 Hmodel1 Hsink1.
  injection Hframe2 as Hclient2 Hapi2 Hdata2 Hmodel2 Hsink2.
  assert (∃ w', Main.load_ai_model fit w2 = (Returned tt, w') ∧
                Props.waited (trace w') = Props.waited (trace w2) ∧
                model w' = match fit with
                           | Returned m => Some m | Raised _ => None end ∧
                (influx_client w', write_api w', latest_data w', sink w')
                  = (influx_client w2, write_api w2, latest_data w2, sink w2))
    as (w3 & -> & Hwait3 & Hmodel3 & Hframe3).
  { unfold Main.load_ai_model. unfold_M.
    destruct fit as [m|e]; cbn; eexists; (split; [reflexivity|]); cbn;
      rewrite ?waited_app; cbn; repeat split; lia. }
  injection Hframe3 as Hclient3 Hapi3 Hdata3 Hsink3.
  exists w3. split; [done|]. split; [lia|].
  split; [unfold Props.failures; cbn; repeat case_match; lia|].
  split; [unfold Props.failures; cbn; repeat case_match; lia|].
  split; [done|]. split; [|congruence].
  destruct (existsb built (seq 0 3)); [destruct Hstore1|]; split_and?; congruence.
Qed.

(** *** main: authentication and the read endpoints *)

(** X13.  When [SECRET_KEY] is not in the environment, [main] checks every
    bearer token against the built-in key "your-secret-key".  A token
    that [jwt.decode] refuses under that key gets HTTP 401 from
    [/sensors/latest] and from [/predict] and leaves the process exactly
    as it was (no score is computed, nothing is stored); a token it
    accepts gets what the endpoint itself answers. *)
Theorem default_key_guards_endpoints
    (environ : gmap string string) (int : string → option Z)
    (jwt_decode : string → string → option value)
    (cfg : Main.config) (credentials : string) (w : proc) :
  environ !! "SECRET_KEY" = None →
  Main.load_config int environ = Returned cfg →
  match jwt_decode credentials "your-secret-key" with
  | None =>
      MainApp.sensors_latest cfg jwt_decode credentials w
        = (Raised (HTTPException 401), w) ∧
      MainApp.predict cfg jwt_decode credentials w
        = (Raised (HTTPException 401), w)
  | Some current_user =>
      MainApp.sensors_latest cfg jwt_decode credentials w
        = MainApp.get_latest_sensors current_user w ∧
      MainApp.predict cfg jwt_decode credentials w = Main.predict_anomaly w
  end.
Proof.
  intros Hkey. unfold Main.load_config, Main.getenv. rewrite Hkey. cbn.
  destruct (match environ !! "MQTT_PORT" with
            | Some text => int text
            | None => Some 1883
            end) as [port|]; [|done].
  intros [= <-].
  unfold MainApp.sensors_latest, MainApp.predict, MainApp.depends,
    MainApp.verify_token.
  cbn [Main.SECRET_KEY].
  by destruct (jwt_decode credentials "your-secret-key").
Qed.

Lemma default_key_guards_endpoints_witness :
  let jwt_decode := λ token key : string,
    if String.eqb key "your-secret-key" && String.eqb token "forged"
    then Some (VDict ∅) else None in
  let cfg := Main.Config "mosquitto" 1883 "admin" "secret"
               "http://influxdb:8086" "influx-token-2024" "electrolyzer"
               "electrolyzer_data" "your-secret-key" in
  let w := Spec.scoring 0 in
  (MainApp.sensors_latest cfg jwt_decode "forged" w
     = MainApp.get_latest_sensors (VDict ∅) w ∧
   MainApp.predict cfg jwt_decode "forged" w = Main.predict_anomaly w) ∧
  (MainApp.sensors_latest cfg jwt_decode "other" w
     = (Raised (HTTPException 401), w) ∧
   MainApp.predict cfg jwt_decode "other" w
     = (Raised (HTTPException 401), w)).
Proof.
  intros jwt_decode cfg w. split.
  - exact (default_key_guards_endpoints ∅ (λ _, None) jwt_decode cfg "forged" w
             eq_refl eq_refl).
  - exact (default_key_guards_endpoints ∅ (λ _, None) jwt_decode cfg "other" w
             eq_refl eq_refl).
Defined.

(** X14.  What [main.get_latest_sensors] answers after a message: the
    payload of the message when it decoded to something true, HTTP 404
    when it decoded to something false (an empty object, [null], 0, ...),
    so that such a message makes the cache look empty again; a message
    that did not decode changes nothing.  Reading does not change the
    process. *)
Theorem latest_sensors_round_trip (msg : wire) (current_user : value) (w : proc) :
  ∃ w',
    Main.on_mqtt_message msg w = (Returned tt, w') ∧
    MainApp.get_latest_sensors current_user w'
      = match msg with
        | Json v =>
            (if truthy v then Returned v else Raised (HTTPException 404), w')
        | _ =>
            ((MainApp.get_latest_sensors current_user w).1, w')
        end.
Proof.
  destruct (main_handler_effects msg w) as (w' & Hrun & Hdata & _).
  exists w'. split; [done|].
  unfold MainApp.get_latest_sensors. unfold_M. rewrite Hdata.
  destruct msg as [| |v]; cbn; by destruct (truthy _).
Qed.

(** X15.  A message of [main] that decodes to a true value other than an
    object (a list, a number, a string) becomes [latest_data] all the
    same: [/sensors/latest] then answers it, and [/predict], once a model
    is loaded, raises [AttributeError] on it instead of answering, and
    stores nothing, until an object arrives. *)
Theorem non_object_reading_breaks_predict
    (v : value) (m : estimator) (current_user : value) (w : proc) :
  truthy v = true →
  match v with VDict _ => False | _ => True end →
  model w = Some m →
  ∃ w',
    Main.on_mqtt_message (Json v) w = (Returned tt, w') ∧
    sink w' = sink w ∧
    MainApp.get_latest_sensors current_user w' = (Returned v, w') ∧
    Main.predict_anomaly w' = (Raised AttributeError, w').
Proof.
  intros Htruthy Hshape Hmodel.
  assert (∀ key dflt, get v key dflt = Raised AttributeError) as Hget
    by (intros; by destruct v).
  assert (∀ now, Main.timestamp_of v now = Raised AttributeError) as Hstamp
    by (intros; by destruct v).
  unfold Main.on_mqtt_message, Main.predict_anomaly, MainApp.get_latest_sensors,
    Main.features_of.
  unfold_M. cbn -[truthy get Main.timestamp_of].
  destruct (write_api w); cbn -[truthy get Main.timestamp_of];
    rewrite ?Hstamp; cbn -[truthy get Main.timestamp_of];
    (eexists; split; [reflexivity|]);
    cbn -[truthy get Main.timestamp_of];
    rewrite Htruthy, Hmodel; cbn -[truthy get Main.timestamp_of];
    rewrite Hget; done.
Qed.

Lemma non_object_reading_breaks_predict_witness :
  let w := Spec.scoring 0 in
  ∃ w',
    Main.on_mqtt_message (Json (VList [VInt 1; VInt 2])) w = (Returned tt, w') ∧
    sink w' = sink w ∧
    MainApp.get_latest_sensors VNone w' = (Returned (VList [VInt 1; VInt 2]), w') ∧
    Main.predict_anomaly w' = (Raised AttributeError, w').
Proof.
  intros w.
  apply (non_object_reading_breaks_predict (VList [VInt 1; VInt 2])
           Spec.forest_sample VNone w); [reflexivity|exact I|reflexivity].
Defined.

(** *** data_simulator *)

Lemma generate_data_shape round2 ttf time uniform scenario :
  scenario ∈ "normal" :: Props.failure_scenarios →
  ∃ temp voltage current conductivity,
    DataSimulator.generate_data round2 ttf time uniform scenario
      = Some (DataSimulator.reading_of round2 temp voltage current
                conductivity (Props.stamp_of time scenario) scenario).
Proof.
  intros Hin. unfold Props.failure_scenarios in Hin.
  repeat (apply elem_of_cons in Hin as [->|Hin]; [by eexists _, _, _, _|]).
  by apply elem_of_nil in Hin.
Qed.

Lemma generate_data_known round2 ttf time uniform scenario data :
  DataSimulator.generate_data round2 ttf time uniform scenario = Some data →
  scenario ∈ "normal" :: Props.failure_scenarios.
Proof.
  unfold DataSimulator.generate_data, Props.failure_scenarios.
  destruct (String.eqb_spec scenario "normal") as [->|_]; [set_solver|].
  destruct (String.eqb_spec scenario "chemical_pollution") as [->|_];
    [set_solver|].
  destruct (String.eqb_spec scenario "electrode_corrosion") as [->|_];
    [set_solver|].
  destruct (String.eqb_spec scenario "cooling_failure") as [->|_];
    [set_solver|done].
Qed.

(** X16.  [data_simulator.generate_data] answers for exactly four
    scenarios (any other name ends in the [UnboundLocalError] of its
    [return]), and what it answers always carries the four sensor fields
    and the timestamp as floats and the scenario name.  So
    [backend_api.on_message] processes every such reading to the end when
    the store takes its two records, while [electrolyzer_backend], which
    wants a textual timestamp, drops every such reading whose clock
    reading is not zero. *)
Theorem data_simulator_readings
    (round2 : float → float) (time_to_fail : float) (time : nat → float)
    (uniform : nat → float → float → float) (scenario : string)
    (data : gmap string value) :
  DataSimulator.generate_data round2 time_to_fail time uniform scenario
    = Some data →
  scenario ∈ "normal" :: Props.failure_scenarios ∧
  (∀ key, key ∈ ["temperature"; "voltage"; "current"; "conductivity"] →
          ∃ x, data !! key = Some (VFloat (round2 x))) ∧
  data !! "timestamp" = Some (VFloat (Props.stamp_of time scenario)) ∧
  data !! "scenario" = Some (VStr scenario) ∧
  (∀ w, faults w = [] →
     ∃ w', BackendApi.on_message (Json (VDict data)) w = (Returned tt, w')) ∧
  (∀ fromisoformat w,
     write_api w = true →
     truthy (VFloat (Props.stamp_of time scenario)) = true →
     ElectrolyzerBackend.on_mqtt_message fromisoformat (Json (VDict data)) w
       = (Returned tt,
          record (Log ERROR "Failed to process MQTT message: ")
            (record (Log INFO "Received sensor data: ") w))).
Proof.
  intros Hdata.
  pose proof (generate_data_known _ _ _ _ _ _ Hdata) as Hknown.
  destruct (generate_data_shape round2 time_to_fail time uniform scenario Hknown)
    as (temp & voltage & current & conductivity & Hshape).
  rewrite Hshape in Hdata. injection Hdata as <-.
  generalize (Props.stamp_of time scenario). intros stamp.
  assert (DataSimulator.reading_of round2 temp voltage current conductivity
            stamp scenario !! "timestamp" = Some (VFloat stamp)) as Hstamp
    by done.
  split; [done|]. split; [|split; [|split; [|split]]].
  - intros key Hkey. unfold DataSimulator.reading_of.
    repeat (apply elem_of_cons in Hkey as [->|Hkey]; [by eexists|]).
    by apply elem_of_nil in Hkey.
  - done.
  - done.
  - intros w Hfaults.
    eapply on_message_completes; try done; by eexists.
  - intros fromisoformat w Hapi Htruthy.
    assert (∀ now, ElectrolyzerBackend.point_time_of fromisoformat
                     (VFloat stamp) now = Raised TypeError) as Htime.
    { intros now. unfold ElectrolyzerBackend.point_time_of.
      by rewrite Htruthy. }
    revert Hstamp.
    generalize (DataSimulator.reading_of round2 temp voltage current
                  conductivity stamp scenario).
    intros data Hstamp.
    unfold ElectrolyzerBackend.on_mqtt_message, get. unfold_M.
    cbn -[ElectrolyzerBackend.point_time_of].
    rewrite Hapi, Hstamp. cbn -[ElectrolyzerBackend.point_time_of].
    by rewrite Htime.
Qed.

Lemma data_simulator_readings_witness :
  let time := λ k : nat, match k with
                         | 0%nat => 1700000400
                         | _ => 1700000401
                         end%float in
  let uniform := λ (k : nat) (a b : float), a in
  let data := DataSimulator.reading_of (λ x, x) 74 2 545
                0.55000000000000004 1700000401 "chemical_pollution" in
  data !! "timestamp" = Some (VFloat 1700000401) ∧
  (∃ w', BackendApi.on_message (Json (VDict data)) (boot 0)
           = (Returned tt, w')) ∧
  ElectrolyzerBackend.on_mqtt_message Spec.fromisoformat_sample
    (Json (VDict data)) (Spec.serving 0)
    = (Returned tt,
       record (Log ERROR "Failed to process MQTT message: ")
         (record (Log INFO "Received sensor data: ") (Spec.serving 0))).
Proof.
  intros time uniform data.
  destruct (data_simulator_readings (λ x, x) 1700000100 time uniform
              "chemical_pollution" data eq_refl)
    as (_ & _ & Hts & _ & Hbackend & Helectrolyzer).
  split; [exact Hts|]. split.
  - apply Hbackend. reflexivity.
  - apply Helectrolyzer; reflexivity.
Defined.

Lemma generate_data_scenario round2 ttf time uniform scenario :
  scenario ∈ "normal" :: Props.failure_scenarios →
  ∃ data,
    DataSimulator.generate_data round2 ttf time uniform scenario = Some data ∧
    Props.scenario_of data = Some (VStr scenario).
Proof.
  intros Hin.
  destruct (generate_data_shape round2 ttf time uniform scenario Hin)
    as (temp & voltage & current & conductivity & ->).
  eexists. split; [reflexivity|]. done.
Qed.

Lemma choice_known pick : DataSimulator.choice pick ∈ Props.failure_scenarios.
Proof.
  unfold DataSimulator.choice, Props.failure_scenarios.
  destruct (pick mod 3)%nat as [|[|?]]; set_solver.
Qed.

Lemma failure_not_normal s :
  s ∈ Props.failure_scenarios → String.eqb s "normal" = false.
Proof.
  unfold Props.failure_scenarios. intros Hin.
  repeat (apply elem_of_cons in Hin as [->|Hin]; [done|]).
  by apply elem_of_nil in Hin.
Qed.

Lemma loop_failed round2 ttf s draws :
  s ∈ Props.failure_scenarios →
  Props.scenario_of <$> DataSimulator.loop round2 ttf s draws
    = replicate (length draws) (Some (VStr s)).
Proof.
  intros Hin. induction draws as [|d rest IH]; [done|].
  cbn [DataSimulator.loop length replicate]. unfold DataSimulator.pass.
  rewrite (failure_not_normal s Hin), andb_false_r.
  destruct (generate_data_scenario round2 ttf (DataSimulator.time d)
              (DataSimulator.uniform d) s) as (data & -> & Hs).
  { apply elem_of_cons. by right. }
  by rewrite fmap_cons, Hs, IH.
Qed.

(** X17.  The main loop of [data_simulator] never stops publishing, and a
    failure sticks: the readings carry scenario "normal" up to the first
    pass whose clock is past [time_to_fail], and from that pass on all of
    them carry the one failure scenario [random.choice] picked in that
    pass; the loop never picks again and never returns to "normal". *)
Theorem data_simulator_failure_sticks
    (round2 : float → float) (time_to_fail : float)
    (draws : list DataSimulator.draw) :
  ∃ s,
    s ∈ Props.failure_scenarios ∧
    (∀ d, draws !! Props.healthy_passes time_to_fail draws = Some d →
          s = DataSimulator.choice (DataSimulator.pick d)) ∧
    Props.scenario_of <$> DataSimulator.loop round2 time_to_fail "normal" draws
      = (replicate (Props.healthy_passes time_to_fail draws)
           (Some (VStr "normal")) ++
         replicate (length draws - Props.healthy_passes time_to_fail draws)
           (Some (VStr s)))%list.
Proof.
  induction draws as [|d rest (s & Hs & Hpick & IH)].
  - exists "chemical_pollution". split; [set_solver|]. by split.
  - cbn [DataSimulator.loop Props.healthy_passes]. unfold DataSimulator.pass.
    destruct (time_to_fail <? DataSimulator.now d)%float eqn:Hclock.
    + rewrite String.eqb_refl. cbn [andb].
      exists (DataSimulator.choice (DataSimulator.pick d)).
      split; [apply choice_known|]. split; [by intros d' [= <-]|].
      destruct (generate_data_scenario round2 time_to_fail (DataSimulator.time d)
                  (DataSimulator.uniform d)
                  (DataSimulator.choice (DataSimulator.pick d)))
        as (data & -> & Hdata).
      { apply elem_of_cons. right. apply choice_known. }
      rewrite fmap_cons, Hdata, loop_failed by apply choice_known.
      done.
    + cbn [andb].
      exists s. split; [done|]. split; [exact Hpick|].
      destruct (generate_data_scenario round2 time_to_fail (DataSimulator.time d)
                  (DataSimulator.uniform d) "normal") as (data & -> & Hdata).
      { apply elem_of_cons. by left. }
      by rewrite fmap_cons, Hdata, IH.
Qed.
